(** * Blog API (FastAPI + Oxyde ORM): schema migrations, relational
      integrity and the request handlers, as a shallow embedding.

    Source files embedded here:
    - [models.py]              the declarative models and their [Meta];
    - [migrations/000*.py]     the four migration units;
    - [routes/users.py], [routes/posts.py], [routes/tags.py],
      [routes/comments.py]     the request handlers.

    The ORM itself (query execution, the migration context [ctx], the
    cascade on delete) is not part of the repository.  Its behaviour is
    modelled from the design document and marked as such.  Text is a
    list of Unicode code points, and Python's own string functions are
    parameters of the handlers that call them. *)

From Stdlib Require Import ZArith Lia Ascii String List Sorted.
From stdpp Require Import base option list gmap strings fin_maps.

Open Scope Z_scope.
Open Scope string_scope.
Open Scope list_scope.

(** ** Results of fallible operations *)

Inductive result (E A : Type) : Type :=
| Ok (a : A)
| Raise (e : E).
Arguments Ok {E A} a.
Arguments Raise {E A} e.

Global Instance result_eq_dec {E A} `{EqDecision E, EqDecision A} :
  EqDecision (result E A).
Proof. solve_decision. Defined.

(** ** Schema model: fields, foreign keys, table definitions *)

(** One entry of the [fields=[...]] list of [ctx.create_table]; the
    record keeps the eight keys of the dictionaries in the migrations. *)
Record field := Field_ {
  f_name : string;
  f_python_type : string;
  f_db_type : option string;
  f_nullable : bool;
  f_primary_key : bool;
  f_unique : bool;
  f_default : option string;
  f_auto_increment : bool
}.

(** One entry of the [foreign_keys=[...]] list. *)
Record foreign_key := ForeignKey_ {
  fk_name : string;
  fk_columns : list string;
  fk_ref_table : string;
  fk_ref_columns : list string;
  fk_on_delete : string;
  fk_on_update : string
}.

Record table_def := TableDef {
  td_name : string;
  td_fields : list field;
  td_foreign_keys : list foreign_key;
  td_unique_together : list (list string)
}.

Definition schema := list table_def.

Definition table_names (s : schema) : list string := map td_name s.

Definition find_table (s : schema) (name : string) : option table_def :=
  List.find (fun td => String.eqb (td_name td) name) s.

Definition has_table (s : schema) (name : string) : bool :=
  existsb (fun td => String.eqb (td_name td) name) s.

Inductive schema_error :=
| DuplicateTable (name : string)
| UnknownTable (name : string)
| UnknownColumn (table column : string)
| UnknownReferencedTable (table ref : string)
| PrimaryKeyInvariant (name : string).

(** The closed set of schema mutations a migration issues on [ctx]. *)
Inductive schema_op :=
| CreateTable (name : string) (fields : list field)
              (foreign_keys : list foreign_key)
| DropTable (name : string).

Definition primary_key_count (fields : list field) : nat :=
  length (List.filter f_primary_key fields).

Definition has_column (fields : list field) (c : string) : bool :=
  existsb (fun f => String.eqb (f_name f) c) fields.

(** First foreign-key column that is not a declared field, if any. *)
Definition undeclared_column (fields : list field)
    (fks : list foreign_key) : option string :=
  List.find (fun c => negb (has_column fields c))
            (flat_map fk_columns fks).

(** First referenced table that is neither in the schema nor the table
    being created, if any. *)
Definition unknown_reference (s : schema) (name : string)
    (fks : list foreign_key) : option string :=
  List.find (fun r => negb (has_table s r || String.eqb r name))
            (map fk_ref_table fks).

(** Modelled from the spec: [register_table] of the Schema Model, called
    by [ctx.create_table]: fails with [DuplicateTable] when the name
    exists, checks that exactly one field is the primary key, that the
    local columns of every foreign key are declared and that every
    referenced table exists; the new table is added after the existing
    ones.  [create_table] in the migrations takes no unique-together
    argument, so the registered definition has none. *)
Definition create_table (name : string) (fields : list field)
    (fks : list foreign_key) (s : schema) : result schema_error schema :=
  if has_table s name then Raise (DuplicateTable name)
  else if negb (Nat.eqb (primary_key_count fields) 1)
  then Raise (PrimaryKeyInvariant name)
  else match undeclared_column fields fks with
       | Some c => Raise (UnknownColumn name c)
       | None =>
         match unknown_reference s name fks with
         | Some r => Raise (UnknownReferencedTable name r)
         | None => Ok (s ++ [TableDef name fields fks []])
         end
       end.

(** A table definition without the foreign keys that point at [name]. *)
Definition invalidate_references (name : string) (td : table_def)
    : table_def :=
  TableDef (td_name td) (td_fields td)
    (List.filter (fun fk => negb (String.eqb (fk_ref_table fk) name))
                 (td_foreign_keys td))
    (td_unique_together td).

(** Modelled from the spec: [drop_table] of the Schema Model: fails with
    [UnknownTable] when absent; foreign keys of the remaining tables that
    still reference the dropped table are invalidated (removed). *)
Definition drop_table (name : string) (s : schema)
    : result schema_error schema :=
  if has_table s name
  then Ok (map (invalidate_references name)
             (List.filter (fun td => negb (String.eqb (td_name td) name)) s))
  else Raise (UnknownTable name).

Definition run_op (op : schema_op) (s : schema)
    : result schema_error schema :=
  match op with
  | CreateTable name fields fks => create_table name fields fks s
  | DropTable name => drop_table name s
  end.

(** The operations of one [upgrade] or [downgrade], in program order;
    the first failure stops the run. *)
Fixpoint run_ops (ops : list schema_op) (s : schema)
    : result schema_error schema :=
  match ops with
  | [] => Ok s
  | op :: rest =>
    match run_op op s with
    | Ok s' => run_ops rest s'
    | Raise e => Raise e
    end
  end.

Definition created_tables (ops : list schema_op) : list string :=
  flat_map (fun op => match op with
                      | CreateTable n _ _ => [n]
                      | DropTable _ => []
                      end) ops.

Definition dropped_tables (ops : list schema_op) : list string :=
  flat_map (fun op => match op with
                      | CreateTable _ _ _ => []
                      | DropTable n => [n]
                      end) ops.

(** Every foreign key of every table references a table of the schema. *)
Definition fk_closed (s : schema) : Prop :=
  Forall (fun td =>
    Forall (fun fk => In (fk_ref_table fk) (table_names s))
           (td_foreign_keys td)) s.

(** ** The four migration units *)

Record migration_unit := MigrationUnit {
  mu_name : string;
  depends_on : option string;
  upgrade : list schema_op;
  downgrade : list schema_op
}.

Global Instance field_eq_dec : EqDecision field.
Proof. solve_decision. Defined.

Global Instance foreign_key_eq_dec : EqDecision foreign_key.
Proof. solve_decision. Defined.

Global Instance table_def_eq_dec : EqDecision table_def.
Proof. solve_decision. Defined.

Global Instance schema_error_eq_dec : EqDecision schema_error.
Proof. solve_decision. Defined.

Global Instance schema_op_eq_dec : EqDecision schema_op.
Proof. solve_decision. Defined.

Global Instance migration_unit_eq_dec : EqDecision migration_unit.
Proof. solve_decision. Defined.

(** Field dictionaries as they are written in the migrations. *)
Definition id_field : field :=
  Field_ "id" "int" None true true false None false.
Definition str_field (name : string) (unique : bool) : field :=
  Field_ name "str" None false false unique None false.
Definition timestamp_field (name : string) : field :=
  Field_ name "datetime" None true false false
         (Some "CURRENT_TIMESTAMP") false.
Definition ref_field (name : string) : field :=
  Field_ name "int" None true false false None false.
Definition cascade_fk (name column ref_table : string) : foreign_key :=
  ForeignKey_ name [column] ref_table ["id"] "CASCADE" "CASCADE".

Definition users_fields : list field :=
  [ id_field; str_field "username" true; str_field "email" true;
    timestamp_field "created_at" ].

Definition posts_fields : list field :=
  [ id_field; str_field "title" false; str_field "content" false;
    Field_ "published" "bool" None false false false (Some "0") false;
    timestamp_field "created_at"; timestamp_field "updated_at";
    ref_field "author_id" ].
Definition posts_foreign_keys : list foreign_key :=
  [ cascade_fk "fk_posts_author_id" "author_id" "users" ].

Definition comments_fields : list field :=
  [ id_field; str_field "content" false; timestamp_field "created_at";
    ref_field "post_id"; ref_field "author_id" ].
Definition comments_foreign_keys : list foreign_key :=
  [ cascade_fk "fk_comments_post_id" "post_id" "posts";
    cascade_fk "fk_comments_author_id" "author_id" "users" ].

Definition tags_fields : list field :=
  [ id_field; str_field "name" true; str_field "slug" true ].

Definition post_tags_fields : list field :=
  [ id_field; ref_field "post_id"; ref_field "tag_id" ].
Definition post_tags_foreign_keys : list foreign_key :=
  [ cascade_fk "fk_post_tags_post_id" "post_id" "posts";
    cascade_fk "fk_post_tags_tag_id" "tag_id" "tags" ].

(** migrations/0001_create_users_table.py *)
Definition m0001_create_users_table : migration_unit :=
  MigrationUnit "0001_create_users_table" None
    [ CreateTable "users" users_fields [] ]
    [ DropTable "users" ].

(** migrations/0002_create_posts_table.py *)
Definition m0002_create_posts_table : migration_unit :=
  MigrationUnit "0002_create_posts_table" (Some "0001_create_users_table")
    [ CreateTable "posts" posts_fields posts_foreign_keys ]
    [ DropTable "posts" ].

(** migrations/0003_create_comments_table.py *)
Definition m0003_create_comments_table : migration_unit :=
  MigrationUnit "0003_create_comments_table" (Some "0002_create_posts_table")
    [ CreateTable "comments" comments_fields comments_foreign_keys ]
    [ DropTable "comments" ].

(** migrations/0004_create_tags_table.py *)
Definition m0004_create_tags_table : migration_unit :=
  MigrationUnit "0004_create_tags_table" (Some "0003_create_comments_table")
    [ CreateTable "tags" tags_fields [];
      CreateTable "post_tags" post_tags_fields post_tags_foreign_keys ]
    [ DropTable "post_tags"; DropTable "tags" ].

(** The units found in the migrations directory. *)
Definition discovered_units : list migration_unit :=
  [ m0001_create_users_table; m0002_create_posts_table;
    m0003_create_comments_table; m0004_create_tags_table ].

(** ** Migration resolver *)

Inductive graph_error :=
| UnresolvedDependency (unit_name dependency : string)
| CyclicDependency
| AmbiguousRoot.

Global Instance graph_error_eq_dec : EqDecision graph_error.
Proof. solve_decision. Defined.

Definition find_unit (units : list migration_unit) (name : string)
    : option migration_unit :=
  List.find (fun u => String.eqb (mu_name u) name) units.

(** First unit whose [depends_on] names no known unit. *)
Definition unresolved_unit (units : list migration_unit)
    : option migration_unit :=
  List.find (fun u => match depends_on u with
                      | None => false
                      | Some d => match find_unit units d with
                                  | None => true
                                  | Some _ => false
                                  end
                      end) units.

Definition roots (units : list migration_unit) : list migration_unit :=
  List.filter (fun u => match depends_on u with
                        | None => true
                        | Some _ => false
                        end) units.

(** Number of predecessor links between a unit and its root.  A chain of
    distinct units is shorter than the number of units, so running out
    of fuel means the links loop. *)
Fixpoint chain_depth (fuel : nat) (units : list migration_unit)
    (u : migration_unit) : option nat :=
  match fuel with
  | O => None
  | S n =>
    match depends_on u with
    | None => Some O
    | Some d =>
      match find_unit units d with
      | None => None
      | Some p => S <$> chain_depth n units p
      end
    end
  end.

Fixpoint all_depths (units all : list migration_unit)
    : option (list (nat * migration_unit)) :=
  match units with
  | [] => Some []
  | u :: rest =>
    match chain_depth (length all) all u, all_depths rest all with
    | Some d, Some ds => Some ((d, u) :: ds)
    | _, _ => None
    end
  end.

Fixpoint insert_by_depth (x : nat * migration_unit)
    (l : list (nat * migration_unit)) : list (nat * migration_unit) :=
  match l with
  | [] => [x]
  | y :: t => if Nat.ltb (fst x) (fst y) then x :: y :: t
              else y :: insert_by_depth x t
  end.

Definition sort_by_depth (l : list (nat * migration_unit))
    : list (nat * migration_unit) :=
  fold_right insert_by_depth [] l.

(** Modelled from the spec: the Migration Resolver.  It is given the
    discovered units and the applied-migration record (name to
    timestamp) and fails with [UnresolvedDependency] for a [depends_on]
    that names no unit, with [CyclicDependency] when predecessor links
    loop, with [AmbiguousRoot] for two or more roots over a non-empty
    applied history; otherwise the units are ordered so that each one
    comes after the unit it depends on. *)
Definition resolve (units : list migration_unit) (applied : gmap string Z)
    : result graph_error (list migration_unit) :=
  match unresolved_unit units with
  | Some u => Raise (UnresolvedDependency (mu_name u)
                       (default "" (depends_on u)))
  | None =>
    match all_depths units units with
    | None => Raise CyclicDependency
    | Some ds =>
      if Nat.ltb 1 (length (roots units))
         && negb (bool_decide (applied = ∅))
      then Raise AmbiguousRoot
      else Ok (map snd (sort_by_depth ds))
    end
  end.

(** [order] places every unit after the unit it depends on. *)
Fixpoint respects_dependencies (seen : list string)
    (order : list migration_unit) : bool :=
  match order with
  | [] => true
  | u :: rest =>
    match depends_on u with
    | None => true
    | Some d => existsb (String.eqb d) seen
    end && respects_dependencies (mu_name u :: seen) rest
  end.

(** Each unit after the first names the unit right before it. *)
Fixpoint linked_chain (prev : option string)
    (order : list migration_unit) : bool :=
  match order with
  | [] => true
  | u :: rest =>
    bool_decide (depends_on u = prev) && linked_chain (Some (mu_name u)) rest
  end.

(** The schema the four upgrades build, in the order [0001] to [0004]. *)
Definition blog_schema : schema :=
  [ TableDef "users" users_fields [] [];
    TableDef "posts" posts_fields posts_foreign_keys [];
    TableDef "comments" comments_fields comments_foreign_keys [];
    TableDef "tags" tags_fields [] [];
    TableDef "post_tags" post_tags_fields post_tags_foreign_keys [] ].

(** ** The declarative models of [models.py] *)

Record model_field := ModelField {
  mf_name : string;
  mf_annotation : string;
  db_pk : bool;
  db_unique : bool;
  db_index : bool;
  db_default : option string;
  db_on_delete : option string;
  db_reverse_fk : option string;
  db_m2m : bool;
  db_through : option string
}.

Record Meta := Meta_ {
  is_table : bool;
  table_name : string;
  unique_together : list (list string)
}.

Record model := Model {
  model_name : string;
  model_fields : list model_field;
  model_meta : Meta
}.

Definition plain_attr (name annotation : string) : model_field :=
  ModelField name annotation false false false None None None false None.
Definition pk_attr : model_field :=
  ModelField "id" "int | None" true false false None None None false None.
Definition unique_attr (name : string) (index : bool) : model_field :=
  ModelField name "str" false true index None None None false None.
Definition timestamp_attr (name : string) : model_field :=
  ModelField name "datetime | None" false false false
             (Some "CURRENT_TIMESTAMP") None None false None.
Definition cascade_attr (name annotation : string) : model_field :=
  ModelField name annotation false false false None (Some "CASCADE")
             None false None.

Definition User : model :=
  Model "User"
    [ pk_attr; unique_attr "username" true; unique_attr "email" false;
      timestamp_attr "created_at" ]
    (Meta_ true "users" []).

Definition Tag : model :=
  Model "Tag"
    [ pk_attr; unique_attr "name" false; unique_attr "slug" true ]
    (Meta_ true "tags" []).

Definition Post : model :=
  Model "Post"
    [ pk_attr; plain_attr "title" "str"; plain_attr "content" "str";
      plain_attr "published" "bool"; timestamp_attr "created_at";
      timestamp_attr "updated_at"; cascade_attr "author" "User | None";
      ModelField "comments" "list[Comment]" false false false None None
                 (Some "post") false None;
      ModelField "tags" "list[Tag]" false false false None None None
                 true (Some "PostTag") ]
    (Meta_ true "posts" []).

Definition Comment : model :=
  Model "Comment"
    [ pk_attr; plain_attr "content" "str"; timestamp_attr "created_at";
      cascade_attr "post" "Post | None"; cascade_attr "author" "User | None" ]
    (Meta_ true "comments" []).

Definition PostTag : model :=
  Model "PostTag"
    [ pk_attr; cascade_attr "post" "Post | None";
      cascade_attr "tag" "Tag | None" ]
    (Meta_ true "post_tags" [["post"; "tag"]]).

(** A relation attribute [post] is stored in the column [post_id]. *)
Definition column_of_attr (m : model) (attr : string) : string :=
  match List.find (fun f => String.eqb (mf_name f) attr) (model_fields m) with
  | Some f => match db_on_delete f with
              | Some _ => attr ++ "_id"
              | None => attr
              end
  | None => attr
  end.

(** The unique-together groups a model declares, as column names. *)
Definition declared_unique_groups (m : model) : list (list string) :=
  map (map (column_of_attr m)) (unique_together (model_meta m)).

(** ** Text *)

(** A Python [str] is a sequence of Unicode code points. *)
Abbreviation text := (list N).

(** The code points of a string literal of the sources, which are
    ASCII. *)
Definition txt (s : string) : text :=
  map N_of_ascii (list_ascii_of_string s).

(** ** Rows, tables and the database *)

(** Column values: SQL NULL / Python [None], integers, strings,
    booleans and timestamps (seconds on the time line). *)
Inductive value :=
| VNull
| VInt (z : Z)
| VStr (s : text)
| VBool (b : bool)
| VTime (t : Z).

Global Instance value_eq_dec : EqDecision value.
Proof. solve_decision. Defined.

(** A row (and a model instance) maps column names to values; a
    database maps table names to the rows in insertion order. *)
Abbreviation row := (gmap string value).
Abbreviation database := (gmap string (list row)).

Definition col (r : row) (c : string) : value := default VNull (r !! c).

Definition objects (tbl : string) (db : database) : list row :=
  default [] (db !! tbl).

(** [filter(c=v)]: SQL equality, which NULL never satisfies. *)
Definition col_is (c : string) (v : value) (r : row) : bool :=
  bool_decide (col r c = v) && negb (bool_decide (v = VNull)).

(** [filter(id__in=ids)] *)
Definition id_in (ids : list Z) (r : row) : bool :=
  match col r "id" with
  | VInt z => bool_decide (z ∈ ids)
  | _ => false
  end.

Definition same_pk (a b : row) : bool := col_is "id" (col a "id") b.

(** ** Exceptions and the handler monad *)

Inductive integrity_kind := UniqueConstraintViolation | ForeignKeyViolation.

Inductive exn :=
| HTTPException (status_code : Z) (detail : string)
| IntegrityError (kind : integrity_kind) (table : string)
                 (columns : list string)
| OperationalError (detail : string).

Global Instance integrity_kind_eq_dec : EqDecision integrity_kind.
Proof. solve_decision. Defined.

Global Instance exn_eq_dec : EqDecision exn.
Proof. solve_decision. Defined.

(** A handler reads and writes the database and returns or raises. *)
Definition M (A : Type) : Type := database -> result exn A * database.

Definition ret {A} (a : A) : M A := fun db => (Ok a, db).
Definition raise {A} (e : exn) : M A := fun db => (Raise e, db).
Definition bind {A B} (m : M A) (k : A -> M B) : M B :=
  fun db => match m db with
            | (Ok a, db') => k a db'
            | (Raise e, db') => (Raise e, db')
            end.
(** [await query...]: a read of the current database. *)
Definition query {A} (f : database -> A) : M A := fun db => (Ok (f db), db).

Notation "'let*' x := m 'in' k" := (bind m (fun x => k))
  (at level 10, x name, m at level 100, k at level 200).
Notation "m ;;; k" := (bind m (fun _ => k))
  (at level 100, k at level 200, right associativity).

(** [for x in l: body(x)] *)
Fixpoint for_each {A} (l : list A) (body : A -> M unit) : M unit :=
  match l with
  | [] => ret tt
  | x :: rest => body x ;;; for_each rest body
  end.

(** Modelled from the spec: the Atomic Write Coordinator behind
    [async with transaction.atomic()]: when the body raises, every write
    it made is undone and the exception propagates. *)
Definition atomic {A} (body : M A) : M A :=
  fun db => match body db with
            | (Ok a, db') => (Ok a, db')
            | (Raise e, _) => (Raise e, db)
            end.

(** ** Integrity enforcer and row operations of the ORM *)

Definition row_id (r : row) : Z :=
  match col r "id" with VInt z => z | _ => 0 end.

(** Key the storage engine gives to a row inserted without one. *)
Definition next_id (rows : list row) : Z :=
  1 + fold_right Z.max 0 (map row_id rows).

Definition default_value (f : field) (now : Z) : value :=
  match f_default f with
  | None => VNull
  | Some d =>
    if String.eqb d "CURRENT_TIMESTAMP" then VTime now
    else if String.eqb (f_python_type f) "bool"
    then VBool (negb (String.eqb d "0"))
    else VStr (txt d)
  end.

Definition kwarg (kwargs : list (string * value)) (c : string)
    : option value :=
  snd <$> List.find (fun kv => String.eqb (fst kv) c) kwargs.

(** The row [Model.objects.create] sends to the table: the given
    columns as given, the others at their default, and the new key. *)
Definition new_row (td : table_def) (kwargs : list (string * value))
    (now id : Z) : row :=
  <["id" := VInt id]>
    (list_to_map
       (map (fun f => (f_name f,
                       match kwarg kwargs (f_name f) with
                       | Some v => v
                       | None => default_value f now
                       end)) (td_fields td))).

(** Unique groups of a table: each unique field, then the
    unique-together groups. *)
Definition unique_groups (td : table_def) : list (list string) :=
  map (fun f => [f_name f]) (List.filter f_unique (td_fields td))
  ++ td_unique_together td.

(** [other] holds the same non-null values as [r] on all of [group]. *)
Definition collides (group : list string) (r other : row) : bool :=
  forallb (fun c => col_is c (col r c) other) group.

(** Modelled from the spec: uniqueness check of the Integrity Enforcer;
    rows with the key of [r] itself are not compared. *)
Definition unique_violation (td : table_def) (rows : list row) (r : row)
    : option (list string) :=
  List.find (fun g => existsb (fun other => negb (same_pk r other)
                                            && collides g r other) rows)
            (unique_groups td).

Definition fk_satisfied (db : database) (r : row) (fk : foreign_key)
    : bool :=
  forallb (fun cr =>
             match col r (fst cr) with
             | VNull => true
             | v => existsb (col_is (snd cr) v) (objects (fk_ref_table fk) db)
             end)
          (combine (fk_columns fk) (fk_ref_columns fk)).

(** Modelled from the spec: referential-existence check of the
    Integrity Enforcer. *)
Definition fk_violation (td : table_def) (db : database) (r : row)
    : option foreign_key :=
  List.find (fun fk => negb (fk_satisfied db r fk)) (td_foreign_keys td).

Definition validate (td : table_def) (db : database) (r : row)
    : option exn :=
  match unique_violation td (objects (td_name td) db) r with
  | Some g => Some (IntegrityError UniqueConstraintViolation (td_name td) g)
  | None =>
    match fk_violation td db r with
    | Some fk => Some (IntegrityError ForeignKeyViolation (td_name td)
                         (fk_columns fk))
    | None => None
    end
  end.

(** [await Model.objects.create(...)] against schema [sch] at time
    [now]: validate, then append the row. *)
Definition create (sch : schema) (tbl : string)
    (kwargs : list (string * value)) (now : Z) : M row :=
  fun db =>
    match find_table sch tbl with
    | None => (Raise (OperationalError ("no such table: " ++ tbl)), db)
    | Some td =>
      let r := new_row td kwargs now (next_id (objects tbl db)) in
      match validate td db r with
      | Some e => (Raise e, db)
      | None => (Ok r, <[tbl := objects tbl db ++ [r]]> db)
      end
    end.

(** [await obj.save()] for a loaded instance: validate, then replace the
    stored row that has the key of [obj]. *)
Definition save (sch : schema) (tbl : string) (obj : row) : M unit :=
  fun db =>
    match find_table sch tbl with
    | None => (Raise (OperationalError ("no such table: " ++ tbl)), db)
    | Some td =>
      match validate td db obj with
      | Some e => (Raise e, db)
      | None =>
        (Ok tt, <[tbl := map (fun r => if same_pk obj r then obj else r)
                             (objects tbl db)]> db)
      end
    end.

Definition get_or_none (tbl : string) (id : Z) (db : database)
    : option row :=
  List.find (col_is "id" (VInt id)) (objects tbl db).

(** Rows that reference row [r] of table [tbl] through a foreign key
    with [on_delete = CASCADE], with the table they belong to. *)
Definition dependents (sch : schema) (db : database) (tbl : string)
    (r : row) : list (string * row) :=
  flat_map (fun td =>
    flat_map (fun fk =>
      if String.eqb (fk_ref_table fk) tbl
         && String.eqb (fk_on_delete fk) "CASCADE"
      then map (pair (td_name td))
             (List.filter
                (fun child =>
                   forallb (fun cr => col_is (fst cr) (col r (snd cr)) child)
                           (combine (fk_columns fk) (fk_ref_columns fk)))
                (objects (td_name td) db))
      else [])
      (td_foreign_keys td)) sch.

Fixpoint concat_options {A} (l : list (option (list A)))
    : option (list A) :=
  match l with
  | [] => Some []
  | None :: _ => None
  | Some x :: rest => app x <$> concat_options rest
  end.

(** Modelled from the spec: the cascade of the Integrity Enforcer.  The
    rows to delete for row [r] of [tbl], dependents first and [r] last.
    The recursion follows foreign keys from table to table, so its depth
    is bounded by the number of tables unless the foreign keys of the
    schema form a cycle; [None] when the bound is used up. *)
Fixpoint cascade (fuel : nat) (sch : schema) (db : database)
    (tbl : string) (r : row) : option (list (string * row)) :=
  match fuel with
  | O => None
  | S n =>
    match concat_options
            (map (fun d => cascade n sch db (fst d) (snd d))
                 (dependents sch db tbl r)) with
    | None => None
    | Some below => Some (below ++ [(tbl, r)])
    end
  end.

(** Physical removal of one stored row from its table. *)
Definition remove_row (db : database) (d : string * row) : database :=
  <[fst d := List.filter (fun x => negb (bool_decide (x = snd d)))
                         (objects (fst d) db)]> db.

(** The deletion log of [Model.objects.filter(p).delete()]. *)
Definition deletion_log (sch : schema) (tbl : string) (p : row -> bool)
    (db : database) : option (list (string * row)) :=
  concat_options
    (map (cascade (length sch) sch db tbl) (List.filter p (objects tbl db))).

(** [await Model.objects.filter(p).delete()]: removes the matching rows
    and what cascades from them, in log order; returns how many rows of
    [tbl] matched. *)
Definition delete (sch : schema) (tbl : string) (p : row -> bool) : M nat :=
  fun db =>
    match deletion_log sch tbl p db with
    | None => (Raise (OperationalError "foreign key cycle"), db)
    | Some log =>
      (Ok (length (List.filter p (objects tbl db))),
       fold_left remove_row log db)
    end.

(** ** routes/users.py *)

Record UserCreate := { uc_username : text; uc_email : text }.

(** A field of an update schema is unset ([None] here), or set to
    [null] or to a value. *)
Record UserUpdate := {
  uu_username : option (option text);
  uu_email : option (option text)
}.

Definition of_optional {A} (inj : A -> value) (o : option A) : value :=
  match o with
  | Some a => inj a
  | None => VNull
  end.

Definition dump_field {A} (name : string) (inj : A -> value)
    (f : option (option A)) : list (string * value) :=
  match f with
  | Some v => [(name, of_optional inj v)]
  | None => []
  end.

(** [data.model_dump(exclude_unset=True).items()] *)
Definition user_update_items (data : UserUpdate) : list (string * value) :=
  dump_field "username" VStr (uu_username data)
  ++ dump_field "email" VStr (uu_email data).

(** [for field, value in items: setattr(obj, field, value)] *)
Definition setattrs (obj : row) (items : list (string * value)) : row :=
  fold_left (fun o kv => <[fst kv := snd kv]> o) items obj.

Definition create_user (data : UserCreate) (now : Z) : M row :=
  let* taken := query (fun db =>
    existsb (col_is "username" (VStr (uc_username data)))
            (objects "users" db)) in
  if taken then raise (HTTPException 400 "Username already taken")
  else
    let* taken := query (fun db =>
      existsb (col_is "email" (VStr (uc_email data)))
              (objects "users" db)) in
    if taken then raise (HTTPException 400 "Email already taken")
    else create blog_schema "users"
           [("username", VStr (uc_username data));
            ("email", VStr (uc_email data))] now.

Definition update_user (user_id : Z) (data : UserUpdate) : M row :=
  let* user := query (get_or_none "users" user_id) in
  match user with
  | None => raise (HTTPException 404 "User not found")
  | Some user =>
    let user := setattrs user (user_update_items data) in
    save blog_schema "users" user ;;; ret user
  end.

Definition delete_user (user_id : Z) : M unit :=
  let* count := delete blog_schema "users" (col_is "id" (VInt user_id)) in
  if Nat.eqb count 0 then raise (HTTPException 404 "User not found")
  else ret tt.

(** ** routes/posts.py *)

Record PostUpdate := {
  pu_title : option (option text);
  pu_content : option (option text);
  pu_published : option (option bool)
}.

Record PostCreateWithTags := {
  pc_title : text;
  pc_content : text;
  pc_author_id : Z;
  pc_published : bool;
  pc_tag_ids : list Z
}.

Definition post_update_items (data : PostUpdate) : list (string * value) :=
  dump_field "title" VStr (pu_title data)
  ++ dump_field "content" VStr (pu_content data)
  ++ dump_field "published" VBool (pu_published data).

Definition created_at (r : row) : option Z :=
  match col r "created_at" with
  | VTime t => Some t
  | _ => None
  end.

(** [a] sorts strictly before [b] under [order_by("-created_at")];
    rows without a timestamp come last. *)
Definition newer (a b : row) : bool :=
  match created_at a, created_at b with
  | Some x, Some y => Z.ltb y x
  | Some _, None => true
  | None, _ => false
  end.

Fixpoint insert_newest (x : row) (l : list row) : list row :=
  match l with
  | [] => [x]
  | y :: t => if newer y x then y :: insert_newest x t else x :: y :: t
  end.

(** [query.order_by("-created_at")], as a stable sort. *)
Definition order_by_created_at_desc (l : list row) : list row :=
  fold_right insert_newest [] l.

Definition when_given {A} (o : option A) (p : A -> row -> bool)
    (l : list row) : list row :=
  match o with
  | Some a => List.filter (p a) l
  | None => l
  end.

(** The query [list_posts] builds from its optional filters. *)
Definition posts_query (published : option bool) (author_id : option Z)
    (created_after created_before : option Z) (db : database) : list row :=
  when_given created_before
    (fun t r => match created_at r with
                | Some c => Z.ltb c t
                | None => false
                end)
    (when_given created_after
       (fun t r => match created_at r with
                   | Some c => Z.leb t c
                   | None => false
                   end)
       (when_given author_id (fun a => col_is "author_id" (VInt a))
          (when_given published (fun p => col_is "published" (VBool p))
             (objects "posts" db)))).

Record posts_page := {
  items : list row;
  total : Z;
  page : Z;
  per_page : Z;
  pages : Z
}.

Definition list_posts (published : option bool) (author_id : option Z)
    (created_after created_before : option Z) (page per_page : Z)
    : M posts_page :=
  let* q := query (posts_query published author_id
                               created_after created_before) in
  let total := Z.of_nat (length q) in
  let offset := (page - 1) * per_page in
  let posts := take (Z.to_nat per_page)
                 (drop (Z.to_nat offset) (order_by_created_at_desc q)) in
  ret {| items := posts; total := total; page := page;
         per_page := per_page;
         pages := (total + per_page - 1) / per_page |}.

Definition is_empty {A} (l : list A) : bool :=
  match l with
  | [] => true
  | _ :: _ => false
  end.

Definition create_post_with_tags (data : PostCreateWithTags) (now : Z)
    : M row :=
  let* author := query (fun db =>
    existsb (col_is "id" (VInt (pc_author_id data))) (objects "users" db)) in
  if negb author then raise (HTTPException 400 "Author not found")
  else
    (if negb (is_empty (pc_tag_ids data))
     then
       let* existing_tags := query (fun db =>
         List.filter (id_in (pc_tag_ids data)) (objects "tags" db)) in
       if negb (Nat.eqb (length existing_tags) (length (pc_tag_ids data)))
       then raise (HTTPException 400 "One or more tags not found")
       else ret tt
     else ret tt) ;;;
    atomic
      (let* post := create blog_schema "posts"
                      [("title", VStr (pc_title data));
                       ("content", VStr (pc_content data));
                       ("author_id", VInt (pc_author_id data));
                       ("published", VBool (pc_published data))] now in
       for_each (pc_tag_ids data)
         (fun tag_id =>
            create blog_schema "post_tags"
              [("post_id", col post "id"); ("tag_id", VInt tag_id)] now
            ;;; ret tt) ;;;
       ret post).

Definition update_post (post_id : Z) (data : PostUpdate) : M row :=
  let* post := query (get_or_none "posts" post_id) in
  match post with
  | None => raise (HTTPException 404 "Post not found")
  | Some post =>
    let post := setattrs post (post_update_items data) in
    save blog_schema "posts" post ;;; ret post
  end.

Definition delete_post (post_id : Z) : M unit :=
  let* count := delete blog_schema "posts" (col_is "id" (VInt post_id)) in
  if Nat.eqb count 0 then raise (HTTPException 404 "Post not found")
  else ret tt.

Definition is_link (post_id tag_id : Z) (r : row) : bool :=
  col_is "post_id" (VInt post_id) r && col_is "tag_id" (VInt tag_id) r.

Definition add_tag_to_post (post_id tag_id : Z) (now : Z) : M row :=
  let* post := query (fun db =>
    existsb (col_is "id" (VInt post_id)) (objects "posts" db)) in
  if negb post then raise (HTTPException 404 "Post not found")
  else
    let* tag := query (fun db =>
      existsb (col_is "id" (VInt tag_id)) (objects "tags" db)) in
    if negb tag then raise (HTTPException 404 "Tag not found")
    else
      let* linked := query (fun db =>
        existsb (is_link post_id tag_id) (objects "post_tags" db)) in
      if linked then raise (HTTPException 400 "Tag already added to post")
      else create blog_schema "post_tags"
             [("post_id", VInt post_id); ("tag_id", VInt tag_id)] now.

Definition remove_tag_from_post (post_id tag_id : Z) : M unit :=
  let* count := delete blog_schema "post_tags" (is_link post_id tag_id) in
  if Nat.eqb count 0 then raise (HTTPException 404 "Relationship not found")
  else ret tt.

(** ** routes/tags.py *)

(** [str.lower], [str.strip] and the classes [\s] and [\w] of [re]
    belong to Python, not to this repository: the handlers are written
    over any implementation of them.  [lower()] works on the whole
    string, since what it gives for a character can depend on its
    neighbours and can be more than one character; [strip()] and [\s]
    use the same whitespace test. *)
Class Unicode := {
  str_lower : text -> text;
  isspace : N -> bool;
  isword : N -> bool
}.

(** The code points of ["-"] and ["_"]. *)
Definition dash : N := 45.
Definition underscore : N := 95.

Section Slugify.
Context `{Unicode}.

Fixpoint lstrip (s : text) : text :=
  match s with
  | [] => []
  | c :: t => if isspace c then lstrip t else s
  end.

Definition strip (s : text) : text := rev (lstrip (rev (lstrip s))).

(** [[^\w\s-]]: what the first substitution deletes. *)
Definition is_removed (c : N) : bool :=
  negb (isword c || isspace c || N.eqb c dash).

(** [[\s_-]]: what the second substitution merges. *)
Definition is_separator (c : N) : bool :=
  isspace c || N.eqb c underscore || N.eqb c dash.

(** [re.sub(r'[^\w\s-]', '', text)] *)
Definition remove_symbols (s : text) : text :=
  List.filter (fun c => negb (is_removed c)) s.

(** [re.sub(r'[\s_-]+', '-', text)]: every maximal run of separators
    becomes one dash; [in_run] tells that the run has been replaced. *)
Fixpoint merge_separators (in_run : bool) (s : text) : text :=
  match s with
  | [] => []
  | c :: t =>
    if is_separator c
    then if in_run then merge_separators true t
         else dash :: merge_separators true t
    else c :: merge_separators false t
  end.

Definition slugify (s : text) : text :=
  merge_separators false (remove_symbols (strip (str_lower s))).

Definition create_tag (name : text) (now : Z) : M row :=
  let slug := slugify name in
  let* taken := query (fun db =>
    existsb (col_is "slug" (VStr slug)) (objects "tags" db)) in
  if taken then raise (HTTPException 400 "Tag already exists")
  else create blog_schema "tags"
         [("name", VStr name); ("slug", VStr slug)] now.

End Slugify.

Definition delete_tag (slug : text) : M unit :=
  let* count := delete blog_schema "tags" (col_is "slug" (VStr slug)) in
  if Nat.eqb count 0 then raise (HTTPException 404 "Tag not found")
  else ret tt.

(** ** The other handlers of routes/users.py *)

Definition list_users : M (list row) := query (objects "users").

Definition get_user (user_id : Z) : M row :=
  let* user := query (get_or_none "users" user_id) in
  match user with
  | None => raise (HTTPException 404 "User not found")
  | Some user => ret user
  end.

Definition list_user_posts (user_id : Z) : M (list row) :=
  let* found := query (fun db =>
    existsb (col_is "id" (VInt user_id)) (objects "users" db)) in
  if negb found then raise (HTTPException 404 "User not found")
  else query (fun db =>
         order_by_created_at_desc
           (List.filter (col_is "author_id" (VInt user_id))
                        (objects "posts" db))).

Record user_stats := {
  us_user : row;
  us_posts_count : Z;
  us_published_posts_count : Z;
  us_comments_count : Z
}.

Definition count_rows (l : list row) : Z := Z.of_nat (length l).

Definition get_user_stats (user_id : Z) : M user_stats :=
  let* user := query (get_or_none "users" user_id) in
  match user with
  | None => raise (HTTPException 404 "User not found")
  | Some user =>
    let* posts_count := query (fun db =>
      count_rows (List.filter (col_is "author_id" (VInt user_id))
                         (objects "posts" db))) in
    let* comments_count := query (fun db =>
      count_rows (List.filter (col_is "author_id" (VInt user_id))
                         (objects "comments" db))) in
    let* published_posts := query (fun db =>
      count_rows (List.filter
               (fun r => col_is "author_id" (VInt user_id) r
                         && col_is "published" (VBool true) r)
               (objects "posts" db))) in
    ret {| us_user := user; us_posts_count := posts_count;
           us_published_posts_count := published_posts;
           us_comments_count := comments_count |}
  end.

(** ** The other handlers of routes/posts.py *)

Record PostCreate := {
  pn_title : text;
  pn_content : text;
  pn_author_id : Z;
  pn_published : bool
}.

Record stats := { st_total : Z; st_published : Z; st_drafts : Z }.

Global Instance stats_eq_dec : EqDecision stats.
Proof. solve_decision. Defined.

Definition posts_stats : M stats :=
  let* total := query (fun db => count_rows (objects "posts" db)) in
  let* published := query (fun db =>
    count_rows (List.filter (col_is "published" (VBool true))
                       (objects "posts" db))) in
  let* drafts := query (fun db =>
    count_rows (List.filter (col_is "published" (VBool false))
                       (objects "posts" db))) in
  ret {| st_total := total; st_published := published;
         st_drafts := drafts |}.

(** [Post.objects.create] on the dumped request, without a check of the
    author. *)
Definition create_post (data : PostCreate) (now : Z) : M row :=
  create blog_schema "posts"
    [("title", VStr (pn_title data)); ("content", VStr (pn_content data));
     ("author_id", VInt (pn_author_id data));
     ("published", VBool (pn_published data))] now.

(** [set_post_tags] runs outside [transaction.atomic]; it returns the
    post id and the tag ids it was given. *)
Definition set_post_tags (post_id : Z) (tag_ids : list Z) (now : Z)
    : M (Z * list Z) :=
  let* post := query (fun db =>
    existsb (col_is "id" (VInt post_id)) (objects "posts" db)) in
  if negb post then raise (HTTPException 404 "Post not found")
  else
    let* existing_tags := query (fun db =>
      List.filter (id_in tag_ids) (objects "tags" db)) in
    if negb (Nat.eqb (length existing_tags) (length tag_ids))
    then raise (HTTPException 400 "One or more tags not found")
    else
      delete blog_schema "post_tags" (col_is "post_id" (VInt post_id)) ;;;
      for_each tag_ids
        (fun tag_id =>
           create blog_schema "post_tags"
             [("post_id", VInt post_id); ("tag_id", VInt tag_id)] now
           ;;; ret tt) ;;;
      ret (post_id, tag_ids).

(** ** The other handlers of routes/tags.py *)

Definition get_tag (slug : text) : M row :=
  let* tag := query (fun db =>
    List.find (col_is "slug" (VStr slug)) (objects "tags" db)) in
  match tag with
  | None => raise (HTTPException 404 "Tag not found")
  | Some tag => ret tag
  end.

(** [filter(id__in=values)] for a list of column values. *)
Definition id_among (values : list value) (r : row) : bool :=
  existsb (fun v => col_is "id" v r) values.

(** The posts are returned without the joined author. *)
Definition list_posts_by_tag (slug : text) : M (list row) :=
  let* tag := query (fun db =>
    List.find (col_is "slug" (VStr slug)) (objects "tags" db)) in
  match tag with
  | None => raise (HTTPException 404 "Tag not found")
  | Some tag =>
    let* post_tags := query (fun db =>
      List.filter (col_is "tag_id" (col tag "id"))
                  (objects "post_tags" db)) in
    let post_ids := map (fun pt => col pt "post_id") post_tags in
    if is_empty post_ids then ret []
    else query (fun db =>
           List.filter (id_among post_ids) (objects "posts" db))
  end.

(** ** routes/comments.py *)

Record CommentCreate := { cc_content : text; cc_author_id : Z }.

Definition create_comment (post_id : Z) (data : CommentCreate) (now : Z)
    : M row :=
  let* post := query (fun db =>
    existsb (col_is "id" (VInt post_id)) (objects "posts" db)) in
  if negb post then raise (HTTPException 404 "Post not found")
  else
    let* author := query (fun db =>
      existsb (col_is "id" (VInt (cc_author_id data)))
              (objects "users" db)) in
    if negb author then raise (HTTPException 400 "Author not found")
    else create blog_schema "comments"
           [("content", VStr (cc_content data)); ("post_id", VInt post_id);
            ("author_id", VInt (cc_author_id data))] now.

(** [CommentUpdate.content] is required, so it is always assigned. *)
Definition update_comment (comment_id : Z) (content : text) : M row :=
  let* comment := query (get_or_none "comments" comment_id) in
  match comment with
  | None => raise (HTTPException 404 "Comment not found")
  | Some comment =>
    let comment := <["content" := VStr content]> comment in
    save blog_schema "comments" comment ;;; ret comment
  end.

Definition delete_comment (comment_id : Z) : M unit :=
  let* count := delete blog_schema "comments"
                  (col_is "id" (VInt comment_id)) in
  if Nat.eqb count 0 then raise (HTTPException 404 "Comment not found")
  else ret tt.

(** ** Reverting migrations *)

(** Running the downgrades of [units] in the order given. *)
Fixpoint revert_units (units : list migration_unit) (s : schema)
    : result schema_error schema :=
  match units with
  | [] => Ok s
  | u :: rest =>
    match run_ops (downgrade u) s with
    | Ok s' => revert_units rest s'
    | Raise e => Raise e
    end
  end.

(** An exception of the store about a foreign key. *)
Definition is_fk_violation (e : exn) : Prop :=
  exists tbl cols, e = IntegrityError ForeignKeyViolation tbl cols.

(** ** Vocabulary of the statements *)

(** [child] holds, in column [c], the key of [parent]. *)
Definition refs (c : string) (parent child : row) : bool :=
  col_is c (col parent "id") child && true.

(** What deleting post [r] removes: its comments, its tag links, then
    the post. *)
Definition post_log (db : database) (r : row) : list (string * row) :=
  map (pair "comments")
      (List.filter (refs "post_id" r) (objects "comments" db))
  ++ map (pair "post_tags")
         (List.filter (refs "post_id" r) (objects "post_tags" db))
  ++ [("posts", r)].

(** What deleting tag [r] removes: its links, then the tag. *)
Definition tag_log (db : database) (r : row) : list (string * row) :=
  map (pair "post_tags")
      (List.filter (refs "tag_id" r) (objects "post_tags" db))
  ++ [("tags", r)].

(** What deleting user [r] removes before [r]: each post with what
    hangs on it, then the comments the user wrote. *)
Definition user_dependents (db : database) (r : row)
    : list (string * row) :=
  flat_map (post_log db)
           (List.filter (refs "author_id" r) (objects "posts" db))
  ++ map (pair "comments")
         (List.filter (refs "author_id" r) (objects "comments" db)).

(** Applying every upgrade of [units] in order, stopping at a failure. *)
Fixpoint apply_units (units : list migration_unit) (s : schema)
    : result schema_error schema :=
  match units with
  | [] => Ok s
  | u :: rest =>
    match run_ops (upgrade u) s with
    | Ok s' => apply_units rest s'
    | Raise e => Raise e
    end
  end.

(** ** Sample data *)

Definition mk_row (l : list (string * value)) : row := list_to_map l.

Definition ann : row :=
  mk_row [("id", VInt 1); ("username", VStr (txt "ann"));
          ("email", VStr (txt "ann@x.org"));
          ("created_at", VTime 100)].
Definition bob : row :=
  mk_row [("id", VInt 2); ("username", VStr (txt "bob"));
          ("email", VStr (txt "bob@x.org"));
          ("created_at", VTime 110)].

Definition sample_post (id author : Z) (title : string) (t : Z) : row :=
  mk_row [("id", VInt id); ("title", VStr (txt title));
          ("content", VStr (txt "text"));
          ("published", VBool true); ("created_at", VTime t);
          ("updated_at", VTime t); ("author_id", VInt author)].

Definition sample_comment (id post author : Z) : row :=
  mk_row [("id", VInt id); ("content", VStr (txt "nice"));
          ("created_at", VTime 300);
          ("post_id", VInt post); ("author_id", VInt author)].

Definition sample_tag (id : Z) (name slug : string) : row :=
  mk_row [("id", VInt id); ("name", VStr (txt name));
          ("slug", VStr (txt slug))].

Definition sample_link (id post tag : Z) : row :=
  mk_row [("id", VInt id); ("post_id", VInt post); ("tag_id", VInt tag)].

(** Two users, three posts, three comments, two tags, three links. *)
Definition sample_db : database :=
  list_to_map
    [ ("users", [ann; bob]);
      ("posts", [sample_post 1 1 "first" 200; sample_post 2 2 "second" 210;
                 sample_post 3 1 "third" 220]);
      ("comments", [sample_comment 1 1 2; sample_comment 2 2 1;
                    sample_comment 3 1 1]);
      ("tags", [sample_tag 1 "Rust Lang" "rust-lang"; sample_tag 2 "Web" "web"]);
      ("post_tags", [sample_link 1 1 1; sample_link 2 1 2; sample_link 3 2 1]) ].


(** ** Vocabulary for slugs *)

Section SlugVocabulary.
Context `{Unicode}.

(** A character that [lower()] leaves as it is. *)
Definition lowered (c : N) : Prop := str_lower [c] = [c].

(** What [slugify] relies on in Python's functions: every character of
    a lowered string is one that [lower()] leaves as it is, a string of
    such characters is left as it is, and the dash is such a character
    and is not whitespace. *)
Record python_str_facts : Prop := {
  lower_gives_lowered : forall s c, In c (str_lower s) -> lowered c;
  lower_keeps_lowered : forall s, Forall lowered s -> str_lower s = s;
  dash_lowered : lowered dash;
  dash_not_space : isspace dash = false
}.

(** What is left after lowering and deleting symbols. *)
Definition kept (c : N) : Prop := is_removed c = false /\ lowered c.

(** A character that [slugify] leaves as it is. *)
Definition slug_char (c : N) : Prop :=
  is_removed c = false /\ isspace c = false /\ lowered c
  /\ (is_separator c = true -> c = dash).

End SlugVocabulary.

(** No two dashes of [s] are adjacent. *)
Fixpoint single_dashes (s : text) : bool :=
  match s with
  | a :: (b :: _) as t => negb (N.eqb a dash && N.eqb b dash)
                          && single_dashes t
  | _ => true
  end.

Definition starts_with_dash (s : text) : bool :=
  match s with
  | c :: _ => N.eqb c dash
  | [] => false
  end.

(** ** Sample tables for the characters *)

Definition between (lo hi n : N) : bool := N.leb lo n && N.leb n hi.

(** [str.isspace] on code points below 256. *)
Definition sample_space (c : N) : bool :=
  between 9 13 c || between 28 32 c || N.eqb c 133 || N.eqb c 160.

(** [\w] on code points below 256. *)
Definition sample_word (c : N) : bool :=
  between 48 57 c || between 65 90 c || N.eqb c 95 || between 97 122 c
  || N.eqb c 170 || between 178 179 c || N.eqb c 181
  || between 185 186 c || between 188 190 c || between 192 214 c
  || between 216 246 c || between 248 255 c.

(** [lower()] of one character: the capitals below 256, and capital I
    with dot above (304), which becomes [i] and a combining dot. *)
Definition sample_lower_point (c : N) : text :=
  if between 65 90 c || between 192 214 c || between 216 222 c
  then [(c + 32)%N]
  else if N.eqb c 304 then [105%N; 775%N]
  else [c].

(** Tables that agree with Python on code points below 256; above,
    apart from 304, characters are taken as uncased symbols. *)
Definition sample_unicode : Unicode :=
  {| str_lower := flat_map sample_lower_point;
     isspace := sample_space;
     isword := sample_word |}.

(** ** Vocabulary for pagination and partial updates *)

(** No row is followed by a strictly newer one. *)
Definition not_older (a b : row) : Prop := newer b a = false.


(** What a PATCH of row [id] of [tbl] with [items] may do to [db]: with
    no such row it is rejected as not found and nothing changes;
    otherwise the other tables and the rows with another key are as
    before, and the stored row agrees with the old one on every column
    that [items] does not name.  [out] is the handler's result and the
    database it leaves. *)
Definition patch_frame (tbl detail : string) (id : Z)
    (items : list (string * value)) (db : database)
    (out : result exn row * database) : Prop :=
  match get_or_none tbl id db with
  | None => out = (Raise (HTTPException 404 detail), db)
  | Some old =>
    (forall t, t <> tbl -> objects t (snd out) = objects t db)
    /\ length (objects tbl (snd out)) = length (objects tbl db)
    /\ (forall (i : nat) r, objects tbl db !! i = Some r ->
          col r "id" <> VInt id -> objects tbl (snd out) !! i = Some r)
    /\ exists stored,
         get_or_none tbl id (snd out) = Some stored
         /\ (forall f, ~ In f (map fst items) -> stored !! f = old !! f)
         /\ match fst out with
            | Ok new => new = stored /\ new = setattrs old items
            | Raise _ => snd out = db
            end
  end.


(** The blog schema with the unique-together groups that [PostTag]
    declares put on post_tags. *)
Definition declared_schema : schema :=
  map (fun td => if String.eqb (td_name td) "post_tags"
                 then TableDef (td_name td) (td_fields td)
                        (td_foreign_keys td) (declared_unique_groups PostTag)
                 else td) blog_schema.

(** Units whose predecessor links loop, and a unit whose predecessor is
    not among the discovered ones. *)
Definition looping_units : list migration_unit :=
  [ MigrationUnit "a" (Some "b") [] []; MigrationUnit "b" (Some "a") [] [] ].
Definition dangling_units : list migration_unit :=
  [ m0001_create_users_table; m0003_create_comments_table ].
Definition two_roots : list migration_unit :=
  [ m0001_create_users_table; MigrationUnit "0001_other" None [] [] ].

(** * Properties *)

(** Closed decidable facts are settled by evaluating their decision
    procedure. *)
Ltac by_computing :=
  cbv zeta; apply (bool_decide_unpack _); vm_compute; exact I.

(** ** Basic facts about queries and tables *)

Lemma col_is_true c v r : col_is c v r = true <-> col r c = v /\ v <> VNull.
Proof.
  unfold col_is.
  rewrite andb_true_iff, negb_true_iff, bool_decide_eq_true,
    bool_decide_eq_false.
  tauto.
Qed.

Lemma col_is_int c z r : col r c = VInt z -> col_is c (VInt z) r = true.
Proof. intros H. apply col_is_true. by split. Qed.

Lemma col_is_str c s r : col r c = VStr s -> col_is c (VStr s) r = true.
Proof. intros H. apply col_is_true. by split. Qed.

Lemma objects_insert_eq t rows (db : database) :
  objects t (<[t := rows]> db) = rows.
Proof. unfold objects. by rewrite lookup_insert_eq. Qed.

Lemma objects_insert_ne t t' rows (db : database) :
  t <> t' -> objects t' (<[t := rows]> db) = objects t' db.
Proof. intros. unfold objects. by rewrite lookup_insert_ne. Qed.

Lemma filter_all {A} (f : A -> bool) (l : list A) :
  (forall x, In x l -> f x = true) -> List.filter f l = l.
Proof.
  induction l as [|x l IH]; intros H; simpl; [done|].
  rewrite (H x) by (by left). f_equal. apply IH. intros; apply H; by right.
Qed.

Lemma filter_filter {A} (f g : A -> bool) (l : list A) :
  List.filter f (List.filter g l) = List.filter (fun x => g x && f x) l.
Proof.
  induction l as [|x l IH]; simpl; [done|].
  destruct (g x); simpl; [destruct (f x)|]; by rewrite IH.
Qed.

(** ** C6: a taken username *)

Section CreateUser.
Variables (db : database) (data : UserCreate) (now : Z).

(** C6.  When some user row already carries the requested username,
    [create_user] raises the "Username already taken" rejection and
    the database it leaves is the database it was given: no row is
    inserted and the existing row keeps its id, username, email and
    created_at. *)
Theorem create_user_taken_username (u : row) :
  In u (objects "users" db) ->
  col u "username" = VStr (uc_username data) ->
  create_user data now db
  = (Raise (HTTPException 400 "Username already taken"), db)
  /\ In u (objects "users" (snd (create_user data now db)))
  /\ length (objects "users" (snd (create_user data now db)))
     = length (objects "users" db).
Proof.
  intros Hin Hname.
  assert (create_user data now db
          = (Raise (HTTPException 400 "Username already taken"), db)) as E.
  { unfold create_user, bind, query.
    replace (existsb _ (objects "users" db)) with true; [done|].
    symmetry. apply existsb_exists. exists u. split; [done|].
    by apply col_is_str. }
  rewrite E. by repeat split.
Qed.
End CreateUser.

Lemma create_user_taken_username_witness :
  create_user {| uc_username := txt "ann"; uc_email := txt "new@x.org" |} 500 sample_db
  = (Raise (HTTPException 400 "Username already taken"), sample_db)
  /\ In ann (objects "users"
       (snd (create_user {| uc_username := txt "ann"; uc_email := txt "new@x.org" |}
                         500 sample_db)))
  /\ length (objects "users"
       (snd (create_user {| uc_username := txt "ann"; uc_email := txt "new@x.org" |}
                         500 sample_db)))
     = length (objects "users" sample_db).
Proof.
  apply (create_user_taken_username sample_db
           {| uc_username := txt "ann"; uc_email := txt "new@x.org" |} 500 ann).
  - apply list_elem_of_In. by_computing.
  - by_computing.
Defined.

(** ** C1: a missing tag id *)

Section CreatePostWithTags.
Variables (db : database) (data : PostCreateWithTags) (now : Z).

Lemma existing_tags_short (missing : Z) :
  NoDup (map (fun t => col t "id") (objects "tags" db)) ->
  In missing (pc_tag_ids data) ->
  (forall t, In t (objects "tags" db) -> col t "id" <> VInt missing) ->
  (length (List.filter (id_in (pc_tag_ids data)) (objects "tags" db))
   < length (pc_tag_ids data))%nat.
Proof.
  intros Hnd Hin Hmiss.
  set (found := List.filter (id_in (pc_tag_ids data)) (objects "tags" db)).
  set (ids := map (fun t => col t "id") found).
  assert (NoDup (VInt missing :: ids)) as Hnd'.
  { constructor.
    - rewrite list_elem_of_In. intros Hm. apply in_map_iff in Hm
        as (t & Ht & Hf). apply filter_In in Hf as [Hf _].
      by apply (Hmiss t).
    - unfold ids, found. clear -Hnd.
      induction (objects "tags" db) as [|t l IH]; simpl; [constructor|].
      apply NoDup_cons in Hnd as [Hnotin Hnd].
      destruct (id_in (pc_tag_ids data) t); simpl; [|by apply IH].
      constructor; [|by apply IH].
      rewrite list_elem_of_In in *. intros Hm. apply Hnotin.
      apply in_map_iff in Hm as (t' & Ht' & Hf).
      apply filter_In in Hf as [Hf _]. apply in_map_iff. by exists t'. }
  assert (forall v, v ∈ VInt missing :: ids ->
                    v ∈ map VInt (pc_tag_ids data)) as Hincl.
  { intros v Hv. rewrite list_elem_of_In in *. destruct Hv as [<-|Hv];
      [by apply in_map|].
    apply in_map_iff in Hv as (t & <- & Hf).
    apply filter_In in Hf as [_ Hf]. unfold id_in in Hf.
    destruct (col t "id") as [|z| | |]; try done.
    apply bool_decide_eq_true in Hf. apply in_map.
    by apply list_elem_of_In. }
  pose proof (submseteq_length _ _ (NoDup_submseteq _ _ Hnd' Hincl)) as Hlen.
  simpl in Hlen. unfold ids in Hlen.
  rewrite !length_map in Hlen. fold found in Hlen. lia.
Qed.

(** C1.  When primary keys of [tags] are unique and some requested tag
    id has no tag row, [create_post_with_tags] is rejected with a
    not-found error (for the author or for the tags) before any write:
    the resulting database is the given one, so posts, comments and
    post_tags hold no new row and the number of posts is the same. *)
Theorem create_post_with_tags_missing_tag (missing : Z) :
  NoDup (map (fun t => col t "id") (objects "tags" db)) ->
  In missing (pc_tag_ids data) ->
  (forall t, In t (objects "tags" db) -> col t "id" <> VInt missing) ->
  exists detail,
    (detail = "Author not found" \/ detail = "One or more tags not found")
    /\ create_post_with_tags data now db
       = (Raise (HTTPException 400 detail), db)
    /\ length (objects "posts" (snd (create_post_with_tags data now db)))
       = length (objects "posts" db).
Proof.
  intros Hnd Hin Hmiss.
  pose proof (existing_tags_short missing Hnd Hin Hmiss) as Hlen.
  assert (is_empty (pc_tag_ids data) = false) as Hne
    by (destruct (pc_tag_ids data); [by destruct Hin|done]).
  assert ((length (List.filter (id_in (pc_tag_ids data)) (objects "tags" db))
           =? length (pc_tag_ids data))%nat = false) as Hneq
    by (apply Nat.eqb_neq; lia).
  destruct (existsb (col_is "id" (VInt (pc_author_id data)))
                    (objects "users" db)) eqn:Hauthor.
  - exists "One or more tags not found". split; [by right|].
    assert (create_post_with_tags data now db
            = (Raise (HTTPException 400 "One or more tags not found"), db))
      as ->; [|done].
    unfold create_post_with_tags, bind, query, raise. cbv beta iota.
    rewrite Hauthor. cbv beta iota delta [negb].
    rewrite Hne. cbv beta iota delta [negb].
    by rewrite Hneq.
  - exists "Author not found". split; [by left|].
    assert (create_post_with_tags data now db
            = (Raise (HTTPException 400 "Author not found"), db))
      as ->; [|done].
    unfold create_post_with_tags, bind, query, raise. cbv beta iota.
    by rewrite Hauthor.
Qed.
End CreatePostWithTags.

Lemma create_post_with_tags_missing_tag_witness :
  exists detail,
    (detail = "Author not found" \/ detail = "One or more tags not found")
    /\ create_post_with_tags
         {| pc_title := txt "T"; pc_content := txt "C"; pc_author_id := 1;
            pc_published := false; pc_tag_ids := [1; 999; 2] |} 500 sample_db
       = (Raise (HTTPException 400 detail), sample_db)
    /\ length (objects "posts"
         (snd (create_post_with_tags
                 {| pc_title := txt "T"; pc_content := txt "C"; pc_author_id := 1;
                    pc_published := false; pc_tag_ids := [1; 999; 2] |}
                 500 sample_db)))
       = length (objects "posts" sample_db).
Proof.
  apply (create_post_with_tags_missing_tag sample_db _ 500 999).
  - by_computing.
  - simpl. tauto.
  - apply List.Forall_forall. by_computing.
Defined.

(** With both tags present the same request stores the post and one
    link per tag. *)
Example create_post_with_tags_stores :
  let r := create_post_with_tags
             {| pc_title := txt "T"; pc_content := txt "C"; pc_author_id := 1;
                pc_published := false; pc_tag_ids := [1; 2] |} 500 sample_db in
  length (objects "posts" (snd r)) = 4%nat
  /\ length (objects "post_tags" (snd r)) = 5%nat.
Proof. by_computing. Qed.

(** ** Deleting rows *)

Lemma objects_remove_row db d t :
  objects t (remove_row db d) =
  List.filter (fun x => negb (bool_decide ((t, x) ∈ [d]))) (objects t db).
Proof.
  destruct d as [t' r]. unfold remove_row. simpl.
  destruct (decide (t' = t)) as [->|Hne].
  - rewrite objects_insert_eq. apply filter_ext. intros x. f_equal.
    apply bool_decide_ext. rewrite list_elem_of_singleton.
    split; [by intros ->|by intros [= ->]].
  - rewrite objects_insert_ne by done. symmetry. apply filter_all.
    intros x _. apply negb_true_iff, bool_decide_eq_false.
    rewrite list_elem_of_singleton. by intros [= -> _].
Qed.

Lemma objects_remove_rows log : forall db t,
  objects t (fold_left remove_row log db) =
  List.filter (fun x => negb (bool_decide ((t, x) ∈ log))) (objects t db).
Proof.
  induction log as [|d log IH]; intros db t; cbn [fold_left].
  - symmetry. apply filter_all. intros x _.
    rewrite bool_decide_eq_false_2; [done|apply not_elem_of_nil].
  - rewrite IH, objects_remove_row, filter_filter. apply filter_ext.
    intros x. rewrite <- negb_orb. f_equal.
    apply eq_true_iff_eq. rewrite orb_true_iff, !bool_decide_eq_true.
    rewrite list_elem_of_singleton, elem_of_cons. done.
Qed.

Lemma objects_untouched log db t :
  (forall x, ~ In (t, x) log) ->
  objects t (fold_left remove_row log db) = objects t db.
Proof.
  intros H. rewrite objects_remove_rows. apply filter_all. intros x _.
  apply negb_true_iff, bool_decide_eq_false. rewrite list_elem_of_In. apply H.
Qed.

Lemma objects_removed log db t (p : row -> bool) :
  (forall x, In x (objects t db) -> (In (t, x) log <-> p x = true)) ->
  objects t (fold_left remove_row log db)
  = List.filter (fun x => negb (p x)) (objects t db).
Proof.
  intros H. rewrite objects_remove_rows. apply filter_ext_in. intros x Hx.
  f_equal. apply eq_true_iff_eq. rewrite bool_decide_eq_true, list_elem_of_In.
  by apply H.
Qed.

Lemma concat_options_flat_map {A B} (f : A -> option (list B))
    (g : A -> list B) (l : list A) :
  (forall x, In x l -> f x = Some (g x)) ->
  concat_options (map f l) = Some (flat_map g l).
Proof.
  induction l as [|x l IH]; intros H; simpl; [done|].
  rewrite (H x) by (by left). rewrite IH by (intros; apply H; by right). done.
Qed.

Lemma concat_options_app {A} (l1 l2 : list (option (list A))) a b :
  concat_options l1 = Some a -> concat_options l2 = Some b ->
  concat_options (l1 ++ l2) = Some (a ++ b).
Proof.
  revert a. induction l1 as [|[x|] l1 IH]; intros a H1 H2; simpl in *.
  - by inversion H1.
  - destruct (concat_options l1) as [r|] eqn:E; simpl in H1; [|done].
    inversion H1; subst. rewrite (IH r eq_refl H2). simpl. by rewrite app_assoc.
  - done.
Qed.

Lemma flat_map_singleton {A B} (f : A -> B) (l : list A) :
  flat_map (fun x => [f x]) l = map f l.
Proof. induction l; simpl; congruence. Qed.

(** ** The cascade over the blog schema *)

Lemma cascade_S n sch db tbl r :
  cascade (S n) sch db tbl r =
  match concat_options (map (fun d => cascade n sch db (fst d) (snd d))
                            (dependents sch db tbl r)) with
  | None => None
  | Some below => Some (below ++ [(tbl, r)])
  end.
Proof. reflexivity. Qed.

Lemma dependents_posts db r :
  dependents blog_schema db "posts" r =
  map (pair "comments") (List.filter (refs "post_id" r) (objects "comments" db))
  ++ map (pair "post_tags")
         (List.filter (refs "post_id" r) (objects "post_tags" db)).
Proof. unfold dependents. cbn. by rewrite ?app_nil_r. Qed.

Lemma dependents_users db r :
  dependents blog_schema db "users" r =
  map (pair "posts") (List.filter (refs "author_id" r) (objects "posts" db))
  ++ map (pair "comments")
         (List.filter (refs "author_id" r) (objects "comments" db)).
Proof. unfold dependents. cbn. by rewrite ?app_nil_r. Qed.

Lemma dependents_tags db r :
  dependents blog_schema db "tags" r =
  map (pair "post_tags") (List.filter (refs "tag_id" r) (objects "post_tags" db)).
Proof. unfold dependents. cbn. by rewrite ?app_nil_r. Qed.

Lemma cascade_post_tags n db r :
  cascade (S n) blog_schema db "post_tags" r = Some [("post_tags", r)].
Proof. reflexivity. Qed.

Lemma cascade_comments n db r :
  cascade (S n) blog_schema db "comments" r = Some [("comments", r)].
Proof. reflexivity. Qed.

Lemma cascade_posts n db r :
  cascade (S (S n)) blog_schema db "posts" r = Some (post_log db r).
Proof.
  rewrite cascade_S, dependents_posts, map_app, !map_map. simpl.
  erewrite concat_options_app.
  - unfold post_log. by rewrite <- app_assoc.
  - apply (concat_options_flat_map _ (fun x => [("comments", x)])). done.
  - apply (concat_options_flat_map _ (fun x => [("post_tags", x)])). done.
Qed.

Lemma cascade_tags n db r :
  cascade (S (S n)) blog_schema db "tags" r = Some (tag_log db r).
Proof.
  rewrite cascade_S, dependents_tags, map_map. simpl.
  by rewrite (concat_options_flat_map _ (fun x => [("post_tags", x)])),
    flat_map_singleton.
Qed.

Lemma cascade_users n db r :
  cascade (S (S (S n))) blog_schema db "users" r
  = Some (user_dependents db r ++ [("users", r)]).
Proof.
  rewrite cascade_S, dependents_users, map_app, !map_map. simpl.
  erewrite concat_options_app.
  - done.
  - apply concat_options_flat_map. intros x _. apply cascade_posts.
  - rewrite <- (flat_map_singleton (pair "comments")).
    by apply concat_options_flat_map.
Qed.

Lemma deletion_log_users p db :
  deletion_log blog_schema "users" p db
  = Some (flat_map (fun u => user_dependents db u ++ [("users", u)])
                   (List.filter p (objects "users" db))).
Proof.
  unfold deletion_log. apply concat_options_flat_map. intros u _.
  apply cascade_users.
Qed.

Lemma deletion_log_posts p db :
  deletion_log blog_schema "posts" p db
  = Some (flat_map (post_log db) (List.filter p (objects "posts" db))).
Proof.
  unfold deletion_log. apply concat_options_flat_map. intros u _.
  apply cascade_posts.
Qed.

Lemma deletion_log_tags p db :
  deletion_log blog_schema "tags" p db
  = Some (flat_map (tag_log db) (List.filter p (objects "tags" db))).
Proof.
  unfold deletion_log. apply concat_options_flat_map. intros u _.
  apply cascade_tags.
Qed.

Lemma deletion_log_post_tags p db :
  deletion_log blog_schema "post_tags" p db
  = Some (map (pair "post_tags") (List.filter p (objects "post_tags" db))).
Proof.
  unfold deletion_log. rewrite <- (flat_map_singleton (pair "post_tags")).
  by apply concat_options_flat_map.
Qed.

(** Which rows a log names. *)
Lemma in_tagged (t t' : string) (x : row) (l : list row) :
  In (t, x) (map (pair t') l) <-> t = t' /\ In x l.
Proof.
  rewrite in_map_iff. split.
  - by intros (y & [= <- <-] & Hy).
  - intros [-> Hx]. by exists x.
Qed.

Lemma in_last_entry (t t' : string) (x r : row) :
  (t', r) = (t, x) \/ False <-> t = t' /\ x = r.
Proof.
  split; [by intros [[= <- <-]|[]]|]. intros [-> ->]. by left.
Qed.

Lemma in_post_log db r t x :
  In (t, x) (post_log db r) <->
  (t = "comments" /\ In x (objects "comments" db) /\ refs "post_id" r x = true)
  \/ (t = "post_tags" /\ In x (objects "post_tags" db)
      /\ refs "post_id" r x = true)
  \/ (t = "posts" /\ x = r).
Proof.
  unfold post_log. rewrite !in_app_iff, !in_tagged, !filter_In.
  cbn [In]. rewrite in_last_entry. tauto.
Qed.

Lemma in_tag_log db r t x :
  In (t, x) (tag_log db r) <->
  (t = "post_tags" /\ In x (objects "post_tags" db) /\ refs "tag_id" r x = true)
  \/ (t = "tags" /\ x = r).
Proof.
  unfold tag_log. rewrite !in_app_iff, !in_tagged, !filter_In.
  cbn [In]. rewrite in_last_entry. tauto.
Qed.

Lemma in_user_dependents db r t x :
  In (t, x) (user_dependents db r) <->
  (exists p, In p (objects "posts" db) /\ refs "author_id" r p = true
             /\ In (t, x) (post_log db p))
  \/ (t = "comments" /\ In x (objects "comments" db)
      /\ refs "author_id" r x = true).
Proof.
  unfold user_dependents. rewrite in_app_iff, in_flat_map, in_tagged.
  setoid_rewrite filter_In. split.
  - intros [(p & [Hp Hr] & Hin)|H]; [left; by exists p|by right].
  - intros [(p & Hp & Hr & Hin)|H]; [left; by exists p|by right].
Qed.

(** The state a delete handler leaves is the state its delete left. *)
Lemma snd_delete_then (m : M nat) (e : exn) db :
  snd ((let* count := m in
        if Nat.eqb count 0 then raise e else ret tt) db) = snd (m db).
Proof.
  unfold bind. destruct (m db) as [[c|e'] db']; [|done].
  by destruct (Nat.eqb c 0).
Qed.

Lemma snd_delete sch tbl p db log :
  deletion_log sch tbl p db = Some log ->
  snd (delete sch tbl p db) = fold_left remove_row log db.
Proof. intros H. unfold delete. by rewrite H. Qed.

Section ManyToMany.
Variable db : database.

Lemma delete_tag_state slug :
  snd (delete_tag slug db)
  = fold_left remove_row
      (flat_map (tag_log db)
         (List.filter (col_is "slug" (VStr slug)) (objects "tags" db))) db.
Proof.
  unfold delete_tag. rewrite snd_delete_then.
  apply snd_delete, deletion_log_tags.
Qed.

Lemma delete_post_state post_id :
  snd (delete_post post_id db)
  = fold_left remove_row
      (flat_map (post_log db)
         (List.filter (col_is "id" (VInt post_id)) (objects "posts" db))) db.
Proof.
  unfold delete_post. rewrite snd_delete_then.
  apply snd_delete, deletion_log_posts.
Qed.

Lemma remove_tag_from_post_state post_id tag_id :
  snd (remove_tag_from_post post_id tag_id db)
  = fold_left remove_row
      (map (pair "post_tags")
         (List.filter (is_link post_id tag_id) (objects "post_tags" db))) db.
Proof.
  unfold remove_tag_from_post. rewrite snd_delete_then.
  apply snd_delete, deletion_log_post_tags.
Qed.

(** C7.  [delete_tag] removes exactly the tag rows with the slug and
    exactly the post_tags rows whose tag_id holds the key of one of
    them, and leaves posts as it was; [delete_post] removes exactly the
    post_tags rows that reference a deleted post and leaves tags as it
    was; [remove_tag_from_post] removes exactly the post_tags rows of
    the pair and leaves posts and tags as they were. *)
Theorem many_to_many_removal :
  (forall slug,
     let deleted :=
       List.filter (col_is "slug" (VStr slug)) (objects "tags" db) in
     let db' := snd (delete_tag slug db) in
     objects "tags" db'
     = List.filter (fun t => negb (col_is "slug" (VStr slug) t))
                   (objects "tags" db)
     /\ objects "post_tags" db'
        = List.filter
            (fun l => negb (existsb (fun t => refs "tag_id" t l) deleted))
            (objects "post_tags" db)
     /\ objects "posts" db' = objects "posts" db)
  /\ (forall post_id,
        let deleted :=
          List.filter (col_is "id" (VInt post_id)) (objects "posts" db) in
        let db' := snd (delete_post post_id db) in
        objects "post_tags" db'
        = List.filter
            (fun l => negb (existsb (fun p => refs "post_id" p l) deleted))
            (objects "post_tags" db)
        /\ objects "tags" db' = objects "tags" db)
  /\ (forall post_id tag_id,
        let db' := snd (remove_tag_from_post post_id tag_id db) in
        objects "post_tags" db'
        = List.filter (fun l => negb (is_link post_id tag_id l))
                      (objects "post_tags" db)
        /\ objects "posts" db' = objects "posts" db
        /\ objects "tags" db' = objects "tags" db).
Proof.
  split; [|split].
  - intros slug deleted db'. subst db'. rewrite delete_tag_state.
    fold deleted. split; [|split].
    + apply objects_removed. intros x Hx. rewrite in_flat_map.
      setoid_rewrite in_tag_log. unfold deleted.
      setoid_rewrite filter_In. split.
      * intros (r & [_ Hr] & [[? _]|[_ ->]]); done.
      * intros Hs. exists x. split; [done|]. by right.
    + apply objects_removed. intros x Hx. rewrite in_flat_map, existsb_exists.
      setoid_rewrite in_tag_log. split.
      * intros (r & Hr & [(_ & _ & ?)|[? _]]); [|done]. by exists r.
      * intros (r & Hr & ?). exists r. split; [done|]. by left.
    + apply objects_untouched. intros x. rewrite in_flat_map.
      setoid_rewrite in_tag_log. intros (r & _ & [[? _]|[? _]]); done.
  - intros post_id deleted db'. subst db'. rewrite delete_post_state.
    fold deleted. split.
    + apply objects_removed. intros x Hx. rewrite in_flat_map, existsb_exists.
      setoid_rewrite in_post_log. split.
      * intros (r & Hr & [[? _]|[(_ & _ & ?)|[? _]]]); try done.
        by exists r.
      * intros (r & Hr & ?). exists r. split; [done|]. right. by left.
    + apply objects_untouched. intros x. rewrite in_flat_map.
      setoid_rewrite in_post_log.
      intros (r & _ & [[? _]|[[? _]|[? _]]]); done.
  - intros post_id tag_id db'. subst db'.
    rewrite remove_tag_from_post_state. split; [|split].
    + apply objects_removed. intros x Hx. rewrite in_tagged, filter_In.
      tauto.
    + apply objects_untouched. intros x. rewrite in_tagged. by intros [? _].
    + apply objects_untouched. intros x. rewrite in_tagged. by intros [? _].
Qed.
End ManyToMany.

Section DeleteUser.
Variables (db : database) (uid : Z).

Lemma refs_true c parent child :
  refs c parent child = true
  <-> col child c = col parent "id" /\ col parent "id" <> VNull.
Proof. unfold refs. rewrite andb_true_r. apply col_is_true. Qed.

Lemma delete_user_log (u : row) :
  In u (objects "users" db) -> col u "id" = VInt uid ->
  exists earlier last,
    In last (objects "users" db) /\ col last "id" = VInt uid
    /\ deletion_log blog_schema "users" (col_is "id" (VInt uid)) db
       = Some ((earlier ++ user_dependents db last) ++ [("users", last)]).
Proof.
  intros Hin Hid. rewrite deletion_log_users.
  destruct (exists_last (l := List.filter (col_is "id" (VInt uid))
                                          (objects "users" db)))
    as (init & last & E).
  { intros E. assert (In u []) as []. rewrite <- E. apply filter_In.
    split; [done|]. by apply col_is_int. }
  assert (In last (List.filter (col_is "id" (VInt uid)) (objects "users" db)))
    as Hl by (rewrite E; apply in_app_iff; right; by left).
  apply filter_In in Hl as [Hl1 Hl2]. apply col_is_true in Hl2 as [Hl2 _].
  exists (flat_map (fun u => user_dependents db u ++ [("users", u)]) init),
    last.
  split; [done|]. split; [done|].
  rewrite E, flat_map_app. simpl. by rewrite app_nil_r, app_assoc.
Qed.

(** C2.  Deleting an existing user succeeds.  The deletion log ends
    with a user row of that id, and everything before it contains the
    user's posts, the comments and tag links of those posts, and the
    user's comments, so these are removed before the user row.  In the
    resulting database no user has the id, no post and no comment has
    it as author_id, and no comment and no post_tags row holds the key
    of a post the user had. *)
Theorem delete_user_cascades (u : row) :
  In u (objects "users" db) ->
  col u "id" = VInt uid ->
  exists before last,
    col last "id" = VInt uid
    /\ deletion_log blog_schema "users" (col_is "id" (VInt uid)) db
       = Some (before ++ [("users", last)])
    /\ delete_user uid db
       = (Ok tt, fold_left remove_row (before ++ [("users", last)]) db)
    /\ (forall p, In p (objects "posts" db) ->
          col p "author_id" = VInt uid ->
          In ("posts", p) before
          /\ (forall c, In c (objects "comments" db) ->
                col p "id" <> VNull -> col c "post_id" = col p "id" ->
                In ("comments", c) before)
          /\ (forall l, In l (objects "post_tags" db) ->
                col p "id" <> VNull -> col l "post_id" = col p "id" ->
                In ("post_tags", l) before))
    /\ (forall c, In c (objects "comments" db) ->
          col c "author_id" = VInt uid -> In ("comments", c) before)
    /\ (forall x, In x (objects "users" (snd (delete_user uid db))) ->
          col x "id" <> VInt uid)
    /\ (forall p, In p (objects "posts" (snd (delete_user uid db))) ->
          col p "author_id" <> VInt uid)
    /\ (forall c, In c (objects "comments" (snd (delete_user uid db))) ->
          col c "author_id" <> VInt uid
          /\ forall p, In p (objects "posts" db) ->
               col p "author_id" = VInt uid -> col p "id" <> VNull ->
               col c "post_id" <> col p "id")
    /\ (forall l, In l (objects "post_tags" (snd (delete_user uid db))) ->
          forall p, In p (objects "posts" db) ->
            col p "author_id" = VInt uid -> col p "id" <> VNull ->
            col l "post_id" <> col p "id").
Proof.
  intros Hin Hid.
  destruct (delete_user_log u Hin Hid) as (earlier & last & Hl & Hlid & Hlog).
  set (before := earlier ++ user_dependents db last) in *.
  assert (forall p, col p "author_id" = VInt uid ->
                    refs "author_id" last p = true) as Hauthor.
  { intros p Hp. apply refs_true. rewrite Hlid. by split. }
  assert (forall p, In p (objects "posts" db) ->
            col p "author_id" = VInt uid -> In ("posts", p) before) as Hposts.
  { intros p Hp Ha. apply in_app_iff. right. apply in_user_dependents.
    left. exists p. split; [done|]. split; [by apply Hauthor|].
    apply in_post_log. by right; right. }
  assert (forall p c, In p (objects "posts" db) ->
            col p "author_id" = VInt uid -> In c (objects "comments" db) ->
            col p "id" <> VNull -> col c "post_id" = col p "id" ->
            In ("comments", c) before) as Hpc.
  { intros p c Hp Ha Hc Hnn Hr. apply in_app_iff. right.
    apply in_user_dependents. left. exists p. split; [done|].
    split; [by apply Hauthor|]. apply in_post_log. left.
    split; [done|]. split; [done|]. by apply refs_true. }
  assert (forall p l, In p (objects "posts" db) ->
            col p "author_id" = VInt uid -> In l (objects "post_tags" db) ->
            col p "id" <> VNull -> col l "post_id" = col p "id" ->
            In ("post_tags", l) before) as Hpl.
  { intros p l Hp Ha Hc Hnn Hr. apply in_app_iff. right.
    apply in_user_dependents. left. exists p. split; [done|].
    split; [by apply Hauthor|]. apply in_post_log. right. left.
    split; [done|]. split; [done|]. by apply refs_true. }
  assert (forall c, In c (objects "comments" db) ->
            col c "author_id" = VInt uid -> In ("comments", c) before) as Hc.
  { intros c Hc Ha. apply in_app_iff. right. apply in_user_dependents.
    right. split; [done|]. split; [done|]. by apply Hauthor. }
  assert (delete_user uid db
          = (Ok tt, fold_left remove_row (before ++ [("users", last)]) db))
    as Hrun.
  { unfold delete_user, bind, delete. rewrite Hlog.
    replace (length _ =? 0)%nat with false; [done|].
    symmetry. apply Nat.eqb_neq. intros E. apply length_zero_iff_nil in E.
    assert (In u []) as []. rewrite <- E. apply filter_In.
    split; [done|]. by apply col_is_int. }
  assert (forall t x,
            In x (objects t (snd (delete_user uid db))) ->
            In x (objects t db) /\ ~ In (t, x) (before ++ [("users", last)]))
    as Hleft.
  { intros t x. rewrite Hrun. simpl. rewrite objects_remove_rows, filter_In.
    rewrite negb_true_iff, bool_decide_eq_false, list_elem_of_In. done. }
  exists before, last.
  split; [done|]. split; [done|]. split; [done|].
  split; [by eauto 10|]. split; [done|].
  split; [|split; [|split]].
  - intros x Hx Hxid. apply Hleft in Hx as [Hx Hnot]. apply Hnot.
    pose proof (deletion_log_users (col_is "id" (VInt uid)) db) as Hall.
    rewrite Hlog in Hall. injection Hall as Hall. rewrite Hall.
    apply in_flat_map. exists x. split.
    + apply filter_In. split; [done|]. by apply col_is_int.
    + apply in_app_iff. right. by left.
  - intros p Hp Ha. apply Hleft in Hp as [Hp Hnot]. apply Hnot.
    apply in_app_iff. left. by apply Hposts.
  - intros c Hx. apply Hleft in Hx as [Hx Hnot]. split.
    + intros Ha. apply Hnot, in_app_iff. left. by apply Hc.
    + intros p Hp Ha Hnn Hr. apply Hnot, in_app_iff. left.
      by apply (Hpc p).
  - intros l Hx p Hp Ha Hnn Hr. apply Hleft in Hx as [Hx Hnot].
    apply Hnot, in_app_iff. left. by apply (Hpl p).
Qed.
End DeleteUser.

Lemma delete_user_cascades_witness :
  Forall (fun p => col p "author_id" <> VInt 1)
         (objects "posts" (snd (delete_user 1 sample_db))).
Proof.
  apply List.Forall_forall.
  destruct (delete_user_cascades sample_db 1 ann) as (before & last & H).
  - apply list_elem_of_In. by_computing.
  - by_computing.
  - apply H.
Defined.

(** Deleting ann from the sample takes her two posts, all three
    comments and the two links of her first post. *)
Example delete_user_sample :
  let db' := snd (delete_user 1 sample_db) in
  objects "users" db' = [bob]
  /\ objects "posts" db' = [sample_post 2 2 "second" 210]
  /\ objects "comments" db' = []
  /\ objects "post_tags" db' = [sample_link 3 2 1]
  /\ objects "tags" db' = objects "tags" sample_db.
Proof. by_computing. Qed.

(** ** C4: resolving the four units *)

Lemma all_orders_checked (applied : gmap string Z) :
  Forall (fun l => resolve l applied = Ok discovered_units
                   /\ length (roots l) = 1%nat
                   /\ (respects_dependencies [] l = true -> l = discovered_units))
         (permutations discovered_units).
Proof.
  let ps := eval vm_compute in (permutations discovered_units) in
  change (permutations discovered_units) with ps.
  repeat (apply Forall_cons; split; [split; [|split]|]);
    try apply Forall_nil; try (vm_compute; reflexivity);
    try (intros H; vm_compute in H; discriminate H).
Qed.

(** C4.  In whatever order the four units are discovered and whatever
    the applied history, resolution succeeds and returns them in the
    order 0001, 0002, 0003, 0004; exactly one unit has no predecessor,
    each other unit names the unit right before it, and an order that
    puts every unit after the one it depends on is that order. *)
Theorem resolve_discovered_units (units : list migration_unit)
    (applied : gmap string Z) :
  units ≡ₚ discovered_units ->
  resolve units applied = Ok discovered_units
  /\ map mu_name discovered_units
     = ["0001_create_users_table"; "0002_create_posts_table";
        "0003_create_comments_table"; "0004_create_tags_table"]
  /\ length (roots units) = 1%nat
  /\ linked_chain None discovered_units = true
  /\ (respects_dependencies [] units = true -> units = discovered_units).
Proof.
  intros Hp. symmetry in Hp. apply permutations_Permutation in Hp.
  pose proof (all_orders_checked applied) as Hall.
  rewrite Forall_forall in Hall. destruct (Hall units Hp) as (H1 & H2 & H3).
  repeat split; try done.
Qed.

(** ** C5: downgrade undoes upgrade *)

Section SchemaModel.
Implicit Types (s : schema) (name : string).

Lemma has_table_false s name :
  has_table s name = false <-> ~ In name (table_names s).
Proof.
  unfold has_table, table_names. rewrite <- not_true_iff_false, existsb_exists.
  rewrite in_map_iff. split; intros H (td & H1 & H2); apply H; exists td.
  - split; [done|by apply String.eqb_eq].
  - split; [by apply String.eqb_eq|done].
Qed.

Lemma has_table_true s name :
  has_table s name = true <-> In name (table_names s).
Proof.
  destruct (has_table s name) eqn:E.
  - split; [|done]. intros _. destruct (in_dec string_dec name (table_names s)) as [|Hn]; [done|].
    apply has_table_false in Hn. congruence.
  - apply has_table_false in E. split; [done|]. intros; contradiction.
Qed.

Lemma create_table_inv name fields fks s s' :
  create_table name fields fks s = Ok s' ->
  has_table s name = false
  /\ unknown_reference s name fks = None
  /\ s' = s ++ [TableDef name fields fks []].
Proof.
  unfold create_table. destruct (has_table s name); [done|].
  destruct (negb _); [done|]. destruct (undeclared_column fields fks); [done|].
  destruct (unknown_reference s name fks); [done|]. intros [= <-]. done.
Qed.

Lemma invalidate_unreferenced name td :
  Forall (fun fk => fk_ref_table fk <> name) (td_foreign_keys td) ->
  invalidate_references name td = td.
Proof.
  intros H. destruct td as [n fs fks ut]. unfold invalidate_references.
  simpl in *. f_equal. apply filter_all. intros fk Hfk.
  rewrite Forall_forall in H. apply negb_true_iff, String.eqb_neq.
  apply H. by apply list_elem_of_In.
Qed.

Lemma drop_absent_is_identity name s :
  fk_closed s -> ~ In name (table_names s) ->
  map (invalidate_references name)
      (List.filter (fun td => negb (String.eqb (td_name td) name)) s) = s.
Proof.
  intros Hc Hn. rewrite filter_all.
  - rewrite <- (map_id s) at 2. apply map_ext_in. intros td Htd.
    apply invalidate_unreferenced. unfold fk_closed in Hc.
    rewrite Forall_forall in Hc. specialize (Hc td).
    rewrite list_elem_of_In in Hc. specialize (Hc Htd).
    eapply Forall_impl; [exact Hc|]. simpl. intros fk Hin Heq.
    apply Hn. by rewrite <- Heq.
  - intros td Htd. apply negb_true_iff, String.eqb_neq. intros <-.
    apply Hn. by apply in_map.
Qed.

Lemma create_table_fk_closed name fields fks s s' :
  fk_closed s -> create_table name fields fks s = Ok s' -> fk_closed s'.
Proof.
  intros Hc Hcr. apply create_table_inv in Hcr as (Hfresh & Href & ->).
  unfold fk_closed, table_names in *. rewrite map_app. apply Forall_app. split.
  - eapply Forall_impl; [exact Hc|]. simpl. intros td Htd.
    eapply Forall_impl; [exact Htd|]. simpl. intros fk Hfk.
    apply in_app_iff. by left.
  - constructor; [|constructor]. simpl. apply Forall_forall. intros fk Hfk.
    apply in_app_iff. unfold unknown_reference in Href.
    pose proof (find_none _ _ Href (fk_ref_table fk)) as Hr. simpl in Hr.
    rewrite negb_false_iff, orb_true_iff in Hr.
    destruct Hr as [Hr|Hr].
    + apply in_map. by apply list_elem_of_In.
    + left. by apply has_table_true.
    + right. left. symmetry. by apply String.eqb_eq.
Qed.

Lemma drop_table_fk_closed name s s' :
  fk_closed s -> drop_table name s = Ok s' -> fk_closed s'.
Proof.
  unfold drop_table. destruct (has_table s name); [|done].
  intros Hc [= <-]. unfold fk_closed, table_names in *.
  rewrite Forall_forall in *. intros td Htd.
  apply list_elem_of_In, in_map_iff in Htd as (td0 & <- & Htd0).
  apply filter_In in Htd0 as [Htd0 Hname]. simpl.
  rewrite Forall_forall. intros fk Hfk.
  apply list_elem_of_In, filter_In in Hfk as [Hfk Hother].
  apply negb_true_iff, String.eqb_neq in Hother.
  specialize (Hc td0). rewrite list_elem_of_In in Hc. specialize (Hc Htd0).
  rewrite Forall_forall in Hc. specialize (Hc fk).
  rewrite list_elem_of_In in Hc. specialize (Hc Hfk).
  apply in_map_iff in Hc as (tr & Htr & Hin).
  rewrite map_map. apply in_map_iff. exists tr. split; [done|].
  apply filter_In. split; [done|]. apply negb_true_iff, String.eqb_neq.
  congruence.
Qed.

(** Every schema that operations build from the empty one is closed. *)
Lemma run_ops_fk_closed ops : forall s s',
  fk_closed s -> run_ops ops s = Ok s' -> fk_closed s'.
Proof.
  induction ops as [|op ops IH]; intros s s' Hc; simpl.
  - by intros [= <-].
  - destruct (run_op op s) as [s1|e] eqn:E; [|done].
    apply IH. destruct op; simpl in E;
      eauto using create_table_fk_closed, drop_table_fk_closed.
Qed.

Lemma create_then_drop name fields fks s s' :
  fk_closed s -> create_table name fields fks s = Ok s' ->
  drop_table name s' = Ok s.
Proof.
  intros Hc Hcr. apply create_table_inv in Hcr as (Hfresh & _ & ->).
  apply has_table_false in Hfresh.
  unfold drop_table.
  replace (has_table _ name) with true.
  2:{ symmetry. apply has_table_true. unfold table_names.
      rewrite map_app. apply in_app_iff. right. by left. }
  rewrite List.filter_app, map_app. simpl. rewrite String.eqb_refl. simpl.
  rewrite app_nil_r. f_equal. by apply drop_absent_is_identity.
Qed.
End SchemaModel.

(** C5.  For each of the four units and every schema whose foreign keys
    reference existing tables: when [upgrade] succeeds, [downgrade] on
    the result succeeds and gives back the schema from before, and
    [downgrade] drops the tables [upgrade] creates in reverse order. *)
Theorem downgrade_inverts_upgrade (u : migration_unit) (s s' : schema) :
  In u discovered_units ->
  fk_closed s ->
  run_ops (upgrade u) s = Ok s' ->
  run_ops (downgrade u) s' = Ok s
  /\ dropped_tables (downgrade u) = rev (created_tables (upgrade u)).
Proof.
  intros Hu Hc Hup. split.
  - destruct Hu as [<-|[<-|[<-|[<-|[]]]]]; simpl in *.
    + destruct (create_table "users" _ _ s) as [s1|] eqn:E1; [|done].
      injection Hup as <-. by rewrite (create_then_drop _ _ _ _ _ Hc E1).
    + destruct (create_table "posts" _ _ s) as [s1|] eqn:E1; [|done].
      injection Hup as <-. by rewrite (create_then_drop _ _ _ _ _ Hc E1).
    + destruct (create_table "comments" _ _ s) as [s1|] eqn:E1; [|done].
      injection Hup as <-. by rewrite (create_then_drop _ _ _ _ _ Hc E1).
    + destruct (create_table "tags" _ _ s) as [s1|] eqn:E1; [|done].
      destruct (create_table "post_tags" _ _ s1) as [s2|] eqn:E2; [|done].
      injection Hup as <-.
      pose proof (create_table_fk_closed _ _ _ _ _ Hc E1) as Hc1.
      rewrite (create_then_drop _ _ _ _ _ Hc1 E2).
      by rewrite (create_then_drop _ _ _ _ _ Hc E1).
  - destruct Hu as [<-|[<-|[<-|[<-|[]]]]]; reflexivity.
Qed.

(** ** C9: slugs *)

Section SlugifyFacts.
Context `{Unicode} (facts : python_str_facts).

Lemma kept_slug_char c : kept c -> is_separator c = false -> slug_char c.
Proof.
  intros [Hr Hl] Hs. unfold slug_char. rewrite Hs.
  unfold is_separator in Hs. apply orb_false_iff in Hs as [Hs _].
  apply orb_false_iff in Hs as [Hs _]. by repeat split.
Qed.

Lemma slug_char_dash : slug_char dash.
Proof.
  unfold slug_char, is_removed.
  rewrite (dash_not_space facts), N.eqb_refl, orb_true_r.
  split; [done|]. split; [done|]. split; [apply (dash_lowered facts)|done].
Qed.

Lemma not_separator_not_dash c :
  is_separator c = false -> N.eqb c dash = false.
Proof. unfold is_separator. intros Hs. by apply orb_false_iff in Hs as [_ ->]. Qed.

Lemma single_dashes_cons a m :
  N.eqb a dash = false \/ starts_with_dash m = false ->
  single_dashes m = true -> single_dashes (a :: m) = true.
Proof.
  intros Ha Hm. destruct m as [|b m]; [done|].
  change (negb (N.eqb a dash && N.eqb b dash)
          && single_dashes (b :: m) = true).
  rewrite Hm, andb_true_r. apply negb_true_iff, andb_false_iff. exact Ha.
Qed.

Lemma single_dashes_tail a m :
  single_dashes (a :: m) = true -> single_dashes m = true.
Proof.
  destruct m as [|b m]; [done|].
  change (negb (N.eqb a dash && N.eqb b dash)
          && single_dashes (b :: m) = true -> single_dashes (b :: m) = true).
  intros Hd. by apply andb_true_iff in Hd as [_ ?].
Qed.

(** Merging separators leaves slug characters and single dashes, and
    no leading dash inside a run. *)
Lemma merge_separators_slug s : forall in_run,
  Forall kept s ->
  Forall slug_char (merge_separators in_run s)
  /\ single_dashes (merge_separators in_run s) = true
  /\ (in_run = true -> starts_with_dash (merge_separators in_run s) = false).
Proof.
  induction s as [|c t IH]; intros in_run Hk; [by repeat split|].
  apply Forall_cons in Hk as [Hc Ht]. cbn [merge_separators].
  destruct (is_separator c) eqn:Hsep.
  - destruct in_run; [by apply IH|].
    destruct (IH true Ht) as (H1 & H2 & H3). repeat split; [| |done].
    + constructor; [apply slug_char_dash|done].
    + apply single_dashes_cons; [right; by apply H3|done].
  - destruct (IH false Ht) as (H1 & H2 & _).
    pose proof (not_separator_not_dash c Hsep) as Hd. repeat split.
    + constructor; [by apply kept_slug_char|done].
    + apply single_dashes_cons; [by left|done].
    + done.
Qed.

Lemma lstrip_sublist l x : In x (lstrip l) -> In x l.
Proof.
  induction l as [|a l IH]; simpl; [done|].
  destruct (isspace a); [right; by apply IH|done].
Qed.

Lemma kept_pipeline s : Forall kept (remove_symbols (strip (str_lower s))).
Proof.
  apply Forall_forall. intros c Hc. apply list_elem_of_In in Hc.
  apply filter_In in Hc as [Hc Hr]. split; [by apply negb_true_iff in Hr|].
  unfold strip in Hc.
  apply in_rev, lstrip_sublist, in_rev, lstrip_sublist in Hc.
  by apply (lower_gives_lowered facts s).
Qed.

(** The characters and the dashes of every slug. *)
Lemma slugify_slug s :
  Forall slug_char (slugify s) /\ single_dashes (slugify s) = true.
Proof.
  destruct (merge_separators_slug (remove_symbols (strip (str_lower s)))
              false (kept_pipeline s)) as (H1 & H2 & _).
  done.
Qed.

Lemma lstrip_no_space s :
  Forall (fun c => isspace c = false) s -> lstrip s = s.
Proof.
  destruct s as [|c t]; [done|]. intros Hs.
  apply Forall_cons in Hs as [Hs _]. simpl. by rewrite Hs.
Qed.

Lemma merge_separators_fixed s : forall in_run,
  Forall slug_char s ->
  single_dashes s = true ->
  (in_run = true -> starts_with_dash s = false) ->
  merge_separators in_run s = s.
Proof.
  induction s as [|c t IH]; intros in_run Hs Hd Hrun; [done|].
  apply Forall_cons in Hs as [Hc Ht]. cbn [merge_separators].
  pose proof (single_dashes_tail c t Hd) as Hdt.
  destruct Hc as (_ & _ & _ & Hdash).
  destruct (is_separator c) eqn:Hsep.
  - rewrite (Hdash eq_refl) in *. destruct in_run.
    + specialize (Hrun eq_refl). done.
    + f_equal. apply IH; [done|done|]. intros _.
      destruct t as [|b t]; [done|].
      change (negb (N.eqb dash dash && N.eqb b dash)
              && single_dashes (b :: t) = true) in Hd.
      apply andb_true_iff in Hd as [Hd _]. by apply negb_true_iff in Hd.
  - f_equal. by apply IH.
Qed.

(** On a string of slug characters with single dashes every step of
    [slugify] does nothing. *)
Lemma slugify_fixed s :
  Forall slug_char s -> single_dashes s = true -> slugify s = s.
Proof.
  intros Hs Hd. unfold slugify.
  assert (str_lower s = s) as ->.
  { apply (lower_keeps_lowered facts). eapply Forall_impl; [exact Hs|].
    by intros c (_ & _ & Hl & _). }
  assert (Forall (fun c => isspace c = false) s) as Hns.
  { eapply Forall_impl; [exact Hs|]. by intros c (_ & Hc & _). }
  assert (strip s = s) as ->.
  { unfold strip. rewrite (lstrip_no_space s Hns).
    rewrite lstrip_no_space; [apply rev_involutive|].
    apply Forall_forall. intros c Hc. apply list_elem_of_In, in_rev in Hc.
    rewrite Forall_forall in Hns. apply Hns. by apply list_elem_of_In. }
  assert (remove_symbols s = s) as ->.
  { apply filter_all. intros c Hc. rewrite Forall_forall in Hs.
    apply list_elem_of_In, Hs in Hc. destruct Hc as (Hr & _).
    by rewrite Hr. }
  by apply merge_separators_fixed.
Qed.

Lemma slugify_idempotent s : slugify (slugify s) = slugify s.
Proof. destruct (slugify_slug s). by apply slugify_fixed. Qed.

Lemma slugify_no_space_no_symbol s :
  Forall (fun c => isspace c = false /\ is_removed c = false) (slugify s).
Proof.
  destruct (slugify_slug s) as [Hs _].
  eapply Forall_impl; [exact Hs|]. by intros c (Hr & Hc & _).
Qed.

End SlugifyFacts.

Lemma new_tag_columns td name slug now id :
  find_table blog_schema "tags" = Some td ->
  col (new_row td [("name", VStr name); ("slug", VStr slug)] now id) "name"
  = VStr name
  /\ col (new_row td [("name", VStr name); ("slug", VStr slug)] now id) "slug"
     = VStr slug.
Proof. intros [= <-]. split; vm_compute; reflexivity. Qed.

(** C9.  For strings of any Unicode code points and any [lower()],
    whitespace test and [\w] for which [python_str_facts] holds:
    [slugify] is idempotent, and a tag that [create_tag] stores has as
    slug [slugify name], which [slugify] maps to itself and which holds
    no whitespace and no character that the filtering step deletes; a
    rejected [create_tag] changes nothing. *)
Theorem slugify_fixed_point `{Unicode} :
  python_str_facts ->
  (forall s, slugify (slugify s) = slugify s)
  /\ (forall name now db,
        match create_tag name now db with
        | (Ok tag, db') =>
            objects "tags" db' = objects "tags" db ++ [tag]
            /\ col tag "name" = VStr name
            /\ exists slug,
                 col tag "slug" = VStr slug
                 /\ slug = slugify name
                 /\ slugify slug = slug
                 /\ Forall (fun c => isspace c = false
                                     /\ is_removed c = false) slug
        | (Raise _, db') => db' = db
        end).
Proof.
  intros facts. split; [apply (slugify_idempotent facts)|].
  intros name now db. unfold create_tag, bind, query, raise.
  destruct (existsb _ (objects "tags" db)); [done|].
  unfold create. destruct (find_table blog_schema "tags") as [td|] eqn:Etd;
    [|done].
  destruct (validate td db _); [done|].
  destruct (new_tag_columns td name (slugify name) now
              (next_id (objects "tags" db)) Etd) as [Hname Hslug].
  split; [apply objects_insert_eq|]. split; [done|].
  exists (slugify name). split; [done|]. split; [done|].
  split; [apply (slugify_idempotent facts)
         |apply (slugify_no_space_no_symbol facts)].
Qed.

(** The sample tables satisfy the facts. *)
Lemma sample_lower_point_lowered c d :
  In d (sample_lower_point c) -> sample_lower_point d = [d].
Proof.
  unfold sample_lower_point, between.
  destruct (_ || _ || _) eqn:Hcap.
  - intros [<-|[]].
    rewrite !orb_true_iff, !andb_true_iff, !N.leb_le in Hcap.
    replace (_ || _ || _) with false; [|symmetry;
      rewrite !orb_false_iff, !andb_false_iff, !N.leb_gt; lia].
    replace (N.eqb _ 304) with false; [done|].
    symmetry. apply N.eqb_neq. lia.
  - destruct (N.eqb c 304) eqn:E.
    + intros [<-|[<-|[]]]; reflexivity.
    + intros [<-|[]]. by rewrite Hcap, E.
Qed.

Lemma sample_unicode_facts : @python_str_facts sample_unicode.
Proof.
  split.
  - intros s c Hc. apply in_flat_map in Hc as (x & _ & Hc).
    unfold lowered. simpl. rewrite app_nil_r.
    by apply (sample_lower_point_lowered x).
  - intros s Hs. simpl. induction Hs as [|c s Hc _ IH]; [done|].
    simpl. rewrite IH. unfold lowered in Hc. simpl in Hc.
    rewrite app_nil_r in Hc. by rewrite Hc.
  - reflexivity.
  - reflexivity.
Qed.

Lemma slugify_fixed_point_witness :
  @slugify sample_unicode (@slugify sample_unicode (txt "Hello,  World_--x! "))
  = @slugify sample_unicode (txt "Hello,  World_--x! ").
Proof.
  apply (@slugify_fixed_point sample_unicode sample_unicode_facts).
Defined.

(** ** C8: pagination *)

Lemma insert_newest_perm x l : insert_newest x l ≡ₚ x :: l.
Proof.
  induction l as [|y t IH]; simpl; [done|].
  destruct (newer y x); [|done]. rewrite IH. apply Permutation_swap.
Qed.

Lemma order_by_created_at_desc_perm l : order_by_created_at_desc l ≡ₚ l.
Proof.
  induction l as [|x l IH]; simpl; [done|].
  unfold order_by_created_at_desc in *. simpl.
  by rewrite insert_newest_perm, IH.
Qed.

Lemma newer_asym a b : newer a b = true -> newer b a = false.
Proof.
  unfold newer. destruct (created_at a), (created_at b); try done.
  intros H. apply Z.ltb_lt in H. apply Z.ltb_ge. lia.
Qed.

Lemma insert_newest_sorted x l :
  Sorted not_older l -> Sorted not_older (insert_newest x l).
Proof.
  induction l as [|y t IH]; intros Hs; simpl.
  - repeat constructor.
  - destruct (newer y x) eqn:E.
    + apply Sorted_inv in Hs as [Hs Hhd]. constructor; [by apply IH|].
      destruct t as [|z t]; simpl.
      * constructor. by apply newer_asym.
      * destruct (newer z x); constructor.
        -- by inversion Hhd.
        -- by apply newer_asym.
    + constructor; [done|]. by constructor.
Qed.

Lemma order_by_created_at_desc_sorted l :
  Sorted not_older (order_by_created_at_desc l).
Proof.
  induction l as [|x l IH]; [constructor|].
  by apply insert_newest_sorted.
Qed.

(** C8.  For [page >= 1] and [1 <= per_page <= 100], [list_posts]
    returns, without changing the database, a page whose [total] counts
    the filtered posts, whose [pages] is [(total + per_page - 1) //
    per_page], the least number of pages of [per_page] posts that hold
    [total] posts, and whose [items] are at most [per_page] posts taken
    from offset [(page - 1) * per_page] of the filtered posts sorted by
    created_at, newest first. *)
Theorem list_posts_pagination (db : database) (published : option bool)
    (author_id created_after created_before : option Z) (page per_page : Z) :
  1 <= page -> 1 <= per_page <= 100 ->
  let q := posts_query published author_id created_after created_before db in
  let ordered := order_by_created_at_desc q in
  exists r,
    list_posts published author_id created_after created_before
               page per_page db = (Ok r, db)
    /\ total r = Z.of_nat (length q) /\ 0 <= total r
    /\ pages r = (total r + per_page - 1) / per_page
    /\ (pages r - 1) * per_page < total r <= pages r * per_page
    /\ (Z.of_nat (length (items r)) <= per_page)
    /\ items r = take (Z.to_nat per_page)
                      (drop (Z.to_nat ((page - 1) * per_page)) ordered)
    /\ ordered ≡ₚ q /\ Sorted not_older ordered.
Proof.
  intros Hpage Hper q ordered.
  eexists. split; [reflexivity|]. simpl. fold q. fold ordered.
  set (total := Z.of_nat (length q)).
  assert (0 <= total) by lia.
  split; [done|]. split; [done|]. split; [done|]. split.
  { pose proof (Z.div_mod (total + per_page - 1) per_page ltac:(lia)) as Hd.
    pose proof (Z.mod_pos_bound (total + per_page - 1) per_page ltac:(lia)).
    nia. }
  split.
  { rewrite length_take. lia. }
  split; [done|]. split.
  - apply order_by_created_at_desc_perm.
  - apply order_by_created_at_desc_sorted.
Qed.

(** ** C10: partial updates *)

Section Patch.
Variables (tbl : string) (id : Z) (items : list (string * value)).
Variable db : database.

Lemma setattrs_other f : forall obj : row,
  ~ In f (map fst items) -> setattrs obj items !! f = obj !! f.
Proof.
  unfold setattrs. induction items as [|[k v] l IH]; intros obj Hf; [done|].
  simpl in *. rewrite IH by tauto. apply lookup_insert_ne. tauto.
Qed.

Lemma get_or_none_found old :
  get_or_none tbl id db = Some old ->
  In old (objects tbl db) /\ col old "id" = VInt id.
Proof.
  unfold get_or_none. intros H. apply find_some in H as [H1 H2].
  apply col_is_true in H2. tauto.
Qed.

Lemma same_pk_by_id (obj r : row) :
  col obj "id" = VInt id -> same_pk obj r = col_is "id" (VInt id) r.
Proof. unfold same_pk. by intros ->. Qed.

Lemma find_replaced (obj : row) rows old :
  col obj "id" = VInt id ->
  List.find (col_is "id" (VInt id)) rows = Some old ->
  List.find (col_is "id" (VInt id))
    (map (fun r => if same_pk obj r then obj else r) rows) = Some obj.
Proof.
  intros Hid. induction rows as [|r rows IH]; simpl; [done|].
  rewrite (same_pk_by_id obj r Hid).
  destruct (col_is "id" (VInt id) r) eqn:E.
  - intros _. by rewrite (col_is_int _ _ _ Hid).
  - rewrite E. apply IH.
Qed.

Lemma patch_spec detail :
  In tbl (table_names blog_schema) ->
  ~ In "id" (map fst items) ->
  patch_frame tbl detail id items db
    ((let* obj := query (get_or_none tbl id) in
      match obj with
      | None => raise (HTTPException 404 detail)
      | Some obj =>
        save blog_schema tbl (setattrs obj items) ;;; ret (setattrs obj items)
      end) db).
Proof.
  intros Htbl Hnoid. unfold patch_frame, bind, query, raise.
  destruct (get_or_none tbl id db) as [old|] eqn:Eold; [|done].
  destruct (get_or_none_found old Eold) as [Hin Hid].
  set (new := setattrs old items).
  assert (col new "id" = VInt id) as Hnewid.
  { unfold col, new. rewrite setattrs_other by done. exact Hid. }
  unfold save. destruct (find_table blog_schema tbl) as [td|] eqn:Etd.
  2:{ exfalso. apply has_table_true in Htbl. unfold has_table, find_table in *.
      apply existsb_exists in Htbl as (x & Hx1 & Hx2).
      by rewrite (find_none _ _ Etd x Hx1) in Hx2. }
  destruct (validate td db new) as [e|]; simpl.
  - split; [done|]. split; [done|]. split; [done|].
    exists old. split; [done|]. by split.
  - split; [intros t Ht; by apply objects_insert_ne|].
    rewrite objects_insert_eq. split; [apply length_map|]. split.
    + intros i r Hi Hr. rewrite list_lookup_fmap, Hi. simpl.
      rewrite (same_pk_by_id new r Hnewid).
      replace (col_is "id" (VInt id) r) with false; [done|].
      symmetry. apply not_true_iff_false. rewrite col_is_true. tauto.
    + exists new. split; [|split; [|done]].
      * unfold get_or_none. rewrite objects_insert_eq.
        by apply (find_replaced new _ old).
      * intros f Hf. by apply setattrs_other.
Qed.
End Patch.

(** C10.  [update_user] and [update_post] satisfy [patch_frame]: every
    column the payload leaves unset keeps its value in the stored row,
    rows with another key and other tables are untouched, and a PATCH of
    an id that is not there raises 404 and leaves the database as it
    was. *)
Theorem patch_keeps_omitted_fields (db : database) :
  (forall user_id data,
     patch_frame "users" "User not found" user_id (user_update_items data) db
                 (update_user user_id data db))
  /\ (forall post_id data,
        patch_frame "posts" "Post not found" post_id (post_update_items data)
                    db (update_post post_id data db)).
Proof.
  split.
  - intros user_id data. apply patch_spec; [simpl; tauto|].
    destruct data as [[u|] [e|]]; simpl; intuition discriminate.
  - intros post_id data. apply patch_spec; [simpl; tauto|].
    destruct data as [[t|] [c|] [p|]]; simpl; intuition discriminate.
Qed.

(** ** Witnesses and checks on the sample data *)

Lemma resolve_discovered_units_witness :
  resolve (rev discovered_units) ∅ = Ok discovered_units.
Proof.
  apply (resolve_discovered_units (rev discovered_units) ∅).
  symmetry. apply Permutation_rev.
Defined.

(** The failures of the resolver on other sets of units. *)
Example resolve_failures :
  resolve looping_units ∅ = Raise CyclicDependency
  /\ resolve dangling_units ∅
     = Raise (UnresolvedDependency "0003_create_comments_table"
                                   "0002_create_posts_table")
  /\ resolve two_roots {[ "0001_create_users_table" := 1700000000 ]}
     = Raise AmbiguousRoot.
Proof. by_computing. Qed.

(** The four upgrades, applied in resolved order to the empty schema,
    build [blog_schema]. *)
Lemma apply_units_blog_schema :
  apply_units discovered_units [] = Ok blog_schema.
Proof. reflexivity. Qed.

Lemma fk_closed_empty : fk_closed [].
Proof. constructor. Qed.

Lemma blog_schema_fk_closed : fk_closed blog_schema.
Proof.
  assert (run_ops (flat_map upgrade discovered_units) [] = Ok blog_schema)
    as H by reflexivity.
  apply (run_ops_fk_closed _ _ _ fk_closed_empty H).
Qed.

Lemma downgrade_inverts_upgrade_witness :
  run_ops (downgrade m0004_create_tags_table) blog_schema
  = Ok (take 3 blog_schema)
  /\ dropped_tables (downgrade m0004_create_tags_table)
     = rev (created_tables (upgrade m0004_create_tags_table)).
Proof.
  apply (downgrade_inverts_upgrade m0004_create_tags_table
           (take 3 blog_schema) blog_schema).
  - simpl. tauto.
  - assert (run_ops (flat_map upgrade (take 3 discovered_units)) []
            = Ok (take 3 blog_schema)) as H by reflexivity.
    apply (run_ops_fk_closed _ _ _ fk_closed_empty H).
  - reflexivity.
Defined.

(** A downgrade in creation order would strip the foreign key of
    post_tags that points at tags before post_tags is dropped; dropping
    a table twice fails. *)
Example drop_table_checks :
  drop_table "tags" blog_schema
  = Ok [ TableDef "users" users_fields [] [];
         TableDef "posts" posts_fields posts_foreign_keys [];
         TableDef "comments" comments_fields comments_foreign_keys [];
         TableDef "post_tags" post_tags_fields
           [ cascade_fk "fk_post_tags_post_id" "post_id" "posts" ] [] ]
  /\ run_ops [DropTable "tags"; DropTable "tags"] blog_schema
     = Raise (UnknownTable "tags")
  /\ run_ops (upgrade m0002_create_posts_table) []
     = Raise (UnknownReferencedTable "posts" "users")
  /\ run_ops (upgrade m0001_create_users_table) blog_schema
     = Raise (DuplicateTable "users").
Proof. by_computing. Qed.

Lemma list_posts_pagination_witness :
  exists r,
    list_posts (Some true) None None None 2 2 sample_db = (Ok r, sample_db)
    /\ total r = 3 /\ pages r = 2
    /\ items r = [sample_post 1 1 "first" 200].
Proof.
  destruct (list_posts_pagination sample_db (Some true) None None None 2 2)
    as (r & Hrun & Htotal & _ & Hpages & _ & _ & Hitems & _); [lia|lia|].
  exists r. split; [done|].
  rewrite Hpages, Hitems, Htotal. by_computing.
Defined.

(** ** C3: the unique-together constraint of post_tags *)

(** C3 (the code departs from it).  [PostTag] declares the pair
    (post, tag) unique together, but the table that migration 0004
    creates has no unique group at all.  Against the migrated schema the
    store accepts a second link for the pair (1, 1) of the sample data;
    against a schema that carries the declared group the same insert is
    refused. *)
Theorem post_tags_migration_lacks_unique_together :
  declared_unique_groups PostTag = [["post_id"; "tag_id"]]
  /\ apply_units discovered_units [] = Ok blog_schema
  /\ unique_groups <$> find_table blog_schema "post_tags" = Some []
  /\ (let out := create blog_schema "post_tags"
                   [("post_id", VInt 1); ("tag_id", VInt 1)] 500 sample_db in
      fst out = Ok (sample_link 4 1 1)
      /\ List.filter (is_link 1 1) (objects "post_tags" (snd out))
         = [sample_link 1 1 1; sample_link 4 1 1])
  /\ create declared_schema "post_tags"
       [("post_id", VInt 1); ("tag_id", VInt 1)] 500 sample_db
     = (Raise (IntegrityError UniqueConstraintViolation "post_tags"
                              ["post_id"; "tag_id"]), sample_db).
Proof. by_computing. Qed.

(** The handler guards the pair itself. *)
Example add_tag_to_post_guard :
  add_tag_to_post 1 1 500 sample_db
  = (Raise (HTTPException 400 "Tag already added to post"), sample_db)
  /\ fst (add_tag_to_post 2 2 500 sample_db) = Ok (sample_link 4 2 2).
Proof. by_computing. Qed.

(** A partial update of bob's email on the sample data, one that
    collides with ann's username, and one of a user that is not there. *)
Example update_user_sample :
  let only_email := {| uu_username := None;
                       uu_email := Some (Some (txt "bob@y.org")) |} in
  let taken := {| uu_username := Some (Some (txt "ann")); uu_email := None |} in
  objects "users" (snd (update_user 2 only_email sample_db))
  = [ann; <["email" := VStr (txt "bob@y.org")]> bob]
  /\ update_user 2 taken sample_db
     = (Raise (IntegrityError UniqueConstraintViolation "users" ["username"]),
        sample_db)
  /\ update_user 7 only_email sample_db
     = (Raise (HTTPException 404 "User not found"), sample_db).
Proof. by_computing. Qed.

(** Slugs of some names. *)
Example slugify_samples :
  let slugify := @slugify sample_unicode in
  slugify (txt "Hello,  World_--x! ") = txt "hello-world-x"
  /\ slugify (txt " ! a") = txt "-a"
  /\ slugify (txt "Rust Lang") = txt "rust-lang"
  /\ slugify (txt "__init__") = txt "-init-"
  /\ slugify [201; 116; 233]%N = [233; 116; 233]%N
  /\ slugify [304; 115; 32; 8364]%N = [105; 115; 45]%N.
Proof. by_computing. Qed.

(** Deleting a tag, a post and a single link on the sample data. *)
Example many_to_many_sample :
  objects "post_tags" (snd (delete_tag (txt "rust-lang") sample_db))
  = [sample_link 2 1 2]
  /\ objects "tags" (snd (delete_tag (txt "rust-lang") sample_db))
     = [sample_tag 2 "Web" "web"]
  /\ objects "post_tags" (snd (delete_post 1 sample_db)) = [sample_link 3 2 1]
  /\ objects "comments" (snd (delete_post 1 sample_db))
     = [sample_comment 2 2 1]
  /\ objects "post_tags" (snd (remove_tag_from_post 1 2 sample_db))
     = [sample_link 1 1 1; sample_link 3 2 1]
  /\ fst (remove_tag_from_post 3 2 sample_db)
     = Raise (HTTPException 404 "Relationship not found").
Proof. by_computing. Qed.

(** * Further properties of the handlers and the migrations *)

(** ** Deleting what is not there *)

Lemma delete_nothing sch tbl p db :
  List.filter p (objects tbl db) = [] ->
  delete sch tbl p db = (Ok 0%nat, db).
Proof. intros H. unfold delete, deletion_log. by rewrite H. Qed.

Lemma filter_none {A} (f : A -> bool) (l : list A) :
  existsb f l = false -> List.filter f l = [].
Proof.
  induction l as [|x l IH]; simpl; [done|].
  destruct (f x); simpl; [done|]. exact IH.
Qed.

Lemma deletion_log_comments p db :
  deletion_log blog_schema "comments" p db
  = Some (map (pair "comments") (List.filter p (objects "comments" db))).
Proof.
  unfold deletion_log. rewrite <- (flat_map_singleton (pair "comments")).
  by apply concat_options_flat_map.
Qed.

Lemma filter_some {A} (f : A -> bool) (l : list A) :
  existsb f l = true -> length (List.filter f l) <> 0%nat.
Proof.
  intros H E. apply length_zero_iff_nil in E.
  apply existsb_exists in H as (x & Hx & Hf).
  assert (In x []) as []. rewrite <- E. by apply filter_In.
Qed.

Lemma delete_handler_outcome tbl p e db log :
  deletion_log blog_schema tbl p db = Some log ->
  (let* count := delete blog_schema tbl p in
   if Nat.eqb count 0 then raise e else ret tt) db
  = if existsb p (objects tbl db)
    then (Ok tt, fold_left remove_row log db)
    else (Raise e, db).
Proof.
  intros Hlog. destruct (existsb p (objects tbl db)) eqn:E.
  - unfold bind, delete. rewrite Hlog.
    apply filter_some, Nat.eqb_neq in E. by rewrite E.
  - unfold bind. by rewrite delete_nothing by (by apply filter_none).
Qed.

(** X1.  Each delete handler answers 404 exactly when no row matches,
    and then leaves the database as it was; otherwise it succeeds. *)
Theorem delete_handlers_outcome (db : database) :
  (forall user_id,
     delete_user user_id db
     = if existsb (col_is "id" (VInt user_id)) (objects "users" db)
       then (Ok tt, snd (delete_user user_id db))
       else (Raise (HTTPException 404 "User not found"), db))
  /\ (forall post_id,
        delete_post post_id db
        = if existsb (col_is "id" (VInt post_id)) (objects "posts" db)
          then (Ok tt, snd (delete_post post_id db))
          else (Raise (HTTPException 404 "Post not found"), db))
  /\ (forall comment_id,
        delete_comment comment_id db
        = if existsb (col_is "id" (VInt comment_id)) (objects "comments" db)
          then (Ok tt, snd (delete_comment comment_id db))
          else (Raise (HTTPException 404 "Comment not found"), db))
  /\ (forall slug,
        delete_tag slug db
        = if existsb (col_is "slug" (VStr slug)) (objects "tags" db)
          then (Ok tt, snd (delete_tag slug db))
          else (Raise (HTTPException 404 "Tag not found"), db))
  /\ (forall post_id tag_id,
        remove_tag_from_post post_id tag_id db
        = if existsb (is_link post_id tag_id) (objects "post_tags" db)
          then (Ok tt, snd (remove_tag_from_post post_id tag_id db))
          else (Raise (HTTPException 404 "Relationship not found"), db)).
Proof.
  repeat split; intros;
    unfold delete_user, delete_post, delete_comment, delete_tag,
      remove_tag_from_post.
  - rewrite (delete_handler_outcome _ _ _ _ _ (deletion_log_users _ _)).
    by destruct (existsb _ _).
  - rewrite (delete_handler_outcome _ _ _ _ _ (deletion_log_posts _ _)).
    by destruct (existsb _ _).
  - rewrite (delete_handler_outcome _ _ _ _ _ (deletion_log_comments _ _)).
    by destruct (existsb _ _).
  - rewrite (delete_handler_outcome _ _ _ _ _ (deletion_log_tags _ _)).
    by destruct (existsb _ _).
  - rewrite (delete_handler_outcome _ _ _ _ _ (deletion_log_post_tags _ _)).
    by destruct (existsb _ _).
Qed.

(** ** Creating users *)

Lemma next_id_fresh rows x :
  In x rows -> col x "id" <> VInt (next_id rows).
Proof.
  intros Hin Hid. assert (row_id x < next_id rows) as Hlt.
  { unfold next_id. clear Hid. induction rows as [|y rows IH]; [done|].
    simpl. destruct Hin as [->|Hin]; [lia|]. specialize (IH Hin). lia. }
  unfold row_id in Hlt. rewrite Hid in Hlt. lia.
Qed.

Lemma unique_free (c : string) (v : value) (r : row) rows :
  col r c = v -> existsb (col_is c v) rows = false ->
  existsb (fun other => negb (same_pk r other) && collides [c] r other) rows
  = false.
Proof.
  intros Hc Hfree. apply not_true_iff_false. rewrite existsb_exists.
  intros (other & Hin & H). apply andb_true_iff in H as [_ H].
  unfold collides in H. simpl in H. rewrite andb_true_r, Hc in H.
  apply not_true_iff_false in Hfree. apply Hfree, existsb_exists.
  by exists other.
Qed.

Lemma new_user_columns u e now id :
  let r := new_row (TableDef "users" users_fields [] [])
             [("username", VStr u); ("email", VStr e)] now id in
  col r "id" = VInt id /\ col r "username" = VStr u
  /\ col r "email" = VStr e /\ col r "created_at" = VTime now.
Proof. repeat split; vm_compute; reflexivity. Qed.

(** X2.  [create_user] is rejected exactly when the username or, after
    it, the email is taken, and then changes nothing; otherwise it
    appends one row that holds the two values, the creation time and a
    key that no stored user has. *)
Theorem create_user_outcome (db : database) (data : UserCreate) (now : Z) :
  let users := objects "users" db in
  match create_user data now db with
  | (Ok r, db') =>
      existsb (col_is "username" (VStr (uc_username data))) users = false
      /\ existsb (col_is "email" (VStr (uc_email data))) users = false
      /\ objects "users" db' = users ++ [r]
      /\ (forall t, t <> "users" -> objects t db' = objects t db)
      /\ col r "username" = VStr (uc_username data)
      /\ col r "email" = VStr (uc_email data)
      /\ col r "created_at" = VTime now
      /\ Forall (fun x => col x "id" <> col r "id") users
  | (Raise e, db') =>
      db' = db
      /\ e = (if existsb (col_is "username" (VStr (uc_username data))) users
              then HTTPException 400 "Username already taken"
              else HTTPException 400 "Email already taken")
      /\ (existsb (col_is "username" (VStr (uc_username data))) users
          || existsb (col_is "email" (VStr (uc_email data))) users) = true
  end.
Proof.
  intros users. subst users.
  unfold create_user, bind, query, raise. cbv beta iota.
  set (users := objects "users" db).
  destruct (existsb (col_is "username" _) users) eqn:Hu;
    [by repeat split|].
  cbv beta iota. fold users.
  destruct (existsb (col_is "email" _) users) eqn:He; [by repeat split|].
  unfold create.
  change (find_table blog_schema "users")
    with (Some (TableDef "users" users_fields [] [])).
  cbv beta iota. fold users.
  set (r := new_row _ _ now (next_id users)).
  destruct (new_user_columns (uc_username data) (uc_email data) now
              (next_id users)) as (Hid & Hname & Hmail & Hat).
  fold r in Hid, Hname, Hmail, Hat.
  assert (validate (TableDef "users" users_fields [] []) db r = None) as ->.
  { unfold validate, unique_violation. cbn [td_name]. fold users.
    change (unique_groups (TableDef "users" users_fields [] []))
      with [["username"]; ["email"]].
    cbn [List.find].
    rewrite (unique_free "username" _ r users Hname Hu).
    by rewrite (unique_free "email" _ r users Hmail He). }
  split; [done|]. split; [done|]. split; [apply objects_insert_eq|].
  split; [intros t Ht; by apply objects_insert_ne|].
  split; [done|]. split; [done|]. split; [done|].
  apply Forall_forall. intros x Hx. rewrite Hid. apply next_id_fresh.
  by apply list_elem_of_In.
Qed.

(** ** Counting posts *)

Lemma filter_three_way {A} (f g : A -> bool) (l : list A) :
  (forall x, f x = true -> g x = false) ->
  length l
  = (length (List.filter f l) + length (List.filter g l)
     + length (List.filter (fun x => negb (f x) && negb (g x)) l))%nat.
Proof.
  intros Hfg. induction l as [|x l IH]; simpl; [done|].
  destruct (f x) eqn:Ef; simpl.
  - rewrite (Hfg x Ef). simpl. lia.
  - destruct (g x); simpl; lia.
Qed.

Lemma filter_length_le {A} (f g : A -> bool) (l : list A) :
  (length (List.filter (fun x => f x && g x) l)
   <= length (List.filter f l))%nat.
Proof.
  induction l as [|x l IH]; simpl; [done|].
  destruct (f x), (g x); simpl; lia.
Qed.

(** X3.  [posts_stats] reads only; its total is the published count
    plus the draft count plus the number of posts whose [published] is
    neither true nor false. *)
Theorem posts_stats_accounts (db : database) :
  exists s,
    posts_stats db = (Ok s, db)
    /\ st_total s = count_rows (objects "posts" db)
    /\ st_total s
       = st_published s + st_drafts s
         + count_rows
             (List.filter
                (fun r => negb (col_is "published" (VBool true) r)
                          && negb (col_is "published" (VBool false) r))
                (objects "posts" db))
    /\ 0 <= st_published s /\ 0 <= st_drafts s.
Proof.
  eexists. split; [reflexivity|]. simpl. unfold count_rows.
  split; [done|]. split; [|lia].
  rewrite (filter_three_way (col_is "published" (VBool true))
             (col_is "published" (VBool false)) (objects "posts" db)); [lia|].
  intros r Ht. apply col_is_true in Ht as [Ht _].
  apply not_true_iff_false. rewrite col_is_true, Ht. by intros [[=] _].
Qed.

(** ** A user's posts and statistics *)

Lemma find_existsb {A} (f : A -> bool) (l : list A) :
  existsb f l = match List.find f l with Some _ => true | None => false end.
Proof. induction l as [|x l IH]; simpl; [done|]. by destruct (f x). Qed.

(** X4.  [list_user_posts] answers 404 exactly when no user has the id;
    otherwise it returns, newest first, exactly the posts whose
    author_id is the id.  The database is not changed. *)
Theorem list_user_posts_outcome (db : database) (user_id : Z) :
  match list_user_posts user_id db with
  | (Ok posts, db') =>
      db' = db
      /\ existsb (col_is "id" (VInt user_id)) (objects "users" db) = true
      /\ posts ≡ₚ List.filter (col_is "author_id" (VInt user_id))
                              (objects "posts" db)
      /\ Sorted not_older posts
      /\ Forall (fun p => col p "author_id" = VInt user_id) posts
  | (Raise e, db') =>
      db' = db /\ e = HTTPException 404 "User not found"
      /\ existsb (col_is "id" (VInt user_id)) (objects "users" db) = false
  end.
Proof.
  unfold list_user_posts, bind, query, raise. cbv beta iota.
  destruct (existsb _ (objects "users" db)); cbv beta iota delta [negb];
    [|done].
  split; [done|]. split; [done|].
  split; [apply order_by_created_at_desc_perm|].
  split; [apply order_by_created_at_desc_sorted|].
  apply Forall_forall. intros p Hp.
  rewrite (order_by_created_at_desc_perm _) in Hp.
  apply list_elem_of_In, filter_In in Hp as [_ Hp].
  apply col_is_true in Hp. tauto.
Qed.

(** X5.  [get_user_stats] agrees with [get_user] and [list_user_posts]:
    it fails when they fail, returns the user [get_user] returns, counts
    as posts the posts [list_user_posts] returns, and never counts more
    published posts than posts. *)
Theorem get_user_stats_consistent (db : database) (user_id : Z) :
  match get_user_stats user_id db with
  | (Ok s, db') =>
      db' = db
      /\ get_user user_id db = (Ok (us_user s), db)
      /\ (exists posts, list_user_posts user_id db = (Ok posts, db)
                        /\ us_posts_count s = count_rows posts)
      /\ 0 <= us_published_posts_count s <= us_posts_count s
      /\ 0 <= us_comments_count s
  | (Raise e, db') =>
      db' = db /\ get_user user_id db = (Raise e, db)
      /\ list_user_posts user_id db = (Raise e, db)
  end.
Proof.
  unfold get_user_stats, get_user, list_user_posts, bind, query, raise, ret.
  cbv beta iota. rewrite find_existsb. unfold get_or_none.
  destruct (List.find _ (objects "users" db)) as [u|];
    cbv beta iota delta [negb]; [|done].
  split; [done|]. split; [done|]. split.
  - eexists. split; [reflexivity|]. unfold count_rows.
    by rewrite (Permutation_length (order_by_created_at_desc_perm _)).
  - unfold count_rows. simpl.
    pose proof (filter_length_le (col_is "author_id" (VInt user_id))
                  (col_is "published" (VBool true)) (objects "posts" db)).
    lia.
Qed.

(** ** Inserting links and posts *)

Lemma validate_without_unique td db r e :
  unique_groups td = [] -> validate td db r = Some e -> is_fk_violation e.
Proof.
  unfold validate, unique_violation. intros ->. simpl.
  destruct (fk_violation td db r) as [fk|]; [|done].
  intros [= <-]. by eexists _, _.
Qed.

Lemma new_link_columns v tid now id :
  let r := new_row (TableDef "post_tags" post_tags_fields
                             post_tags_foreign_keys [])
             [("post_id", v); ("tag_id", VInt tid)] now id in
  col r "post_id" = v /\ col r "tag_id" = VInt tid /\ col r "id" = VInt id.
Proof. repeat split; vm_compute; reflexivity. Qed.

(** Inserting a link fails on a foreign key and changes nothing, or
    appends the link, and then the tag exists. *)
Lemma create_link_cases v tid now db :
  (exists e, create blog_schema "post_tags"
               [("post_id", v); ("tag_id", VInt tid)] now db = (Raise e, db)
             /\ is_fk_violation e)
  \/ (exists r, create blog_schema "post_tags"
                  [("post_id", v); ("tag_id", VInt tid)] now db
                = (Ok r, <["post_tags" := objects "post_tags" db ++ [r]]> db)
                /\ col r "post_id" = v /\ col r "tag_id" = VInt tid
                /\ col r "id" = VInt (next_id (objects "post_tags" db))
                /\ existsb (col_is "id" (VInt tid)) (objects "tags" db) = true).
Proof.
  unfold create.
  change (find_table blog_schema "post_tags")
    with (Some (TableDef "post_tags" post_tags_fields
                  post_tags_foreign_keys [])).
  cbv beta iota.
  pose proof (new_link_columns v tid now (next_id (objects "post_tags" db)))
    as Hcols. cbv zeta in Hcols.
  set (r := new_row _ _ now _) in *. clearbody r.
  destruct Hcols as (Hp & Ht & Hi).
  set (td := TableDef "post_tags" post_tags_fields post_tags_foreign_keys []).
  destruct (validate td db r) as [e|] eqn:E.
  - left. exists e. split; [done|]. by apply (validate_without_unique td db r).
  - right. exists r. split; [done|]. split; [done|]. split; [done|].
    split; [done|].
    unfold validate in E. simpl in E.
    destruct (fk_violation td db r) as [fk|] eqn:Efk; [done|].
    unfold fk_violation in Efk.
    pose proof (find_none _ _ Efk
                  (cascade_fk "fk_post_tags_tag_id" "tag_id" "tags")) as Hsat.
    simpl in Hsat. specialize (Hsat ltac:(tauto)).
    apply negb_false_iff in Hsat. unfold fk_satisfied in Hsat. simpl in Hsat.
    rewrite Ht in Hsat. by rewrite andb_true_r in Hsat.
Qed.

(** The loop that links a post to each tag id: it stops at a foreign
    key failure, or appends one link per id, in order, for tags that
    exist, and touches no other table. *)
Lemma link_loop v now ids : forall db,
  match for_each ids
          (fun tag_id =>
             create blog_schema "post_tags"
               [("post_id", v); ("tag_id", VInt tag_id)] now
             ;;; ret tt) db with
  | (Ok _, db') =>
      exists links,
        objects "post_tags" db' = objects "post_tags" db ++ links
        /\ map (fun l => col l "tag_id") links = map VInt ids
        /\ Forall (fun l => col l "post_id" = v) links
        /\ (forall t, t <> "post_tags" -> objects t db' = objects t db)
        /\ Forall (fun tid => existsb (col_is "id" (VInt tid))
                                      (objects "tags" db) = true) ids
  | (Raise e, _) => is_fk_violation e
  end.
Proof.
  induction ids as [|tid ids IH]; intros db.
  - simpl. exists []. rewrite app_nil_r. by repeat split.
  - cbn [for_each]. unfold bind at 1 2.
    destruct (create_link_cases v tid now db)
      as [(e & -> & He)|(r & -> & Hp & Ht & _ & Hex)]; [done|].
    cbv beta iota. unfold ret at 1. cbv beta iota.
    specialize (IH (<["post_tags" := objects "post_tags" db ++ [r]]> db)).
    destruct (for_each ids _ _) as [[[]|e] db']; [|done].
    destruct IH as (links & Hl & Hm & Hf & Hother & Htags).
    exists (r :: links). rewrite objects_insert_eq in Hl.
    split; [by rewrite Hl, <- app_assoc|].
    split; [simpl; by rewrite Ht, Hm|].
    split; [by constructor|]. split.
    + intros t Hne. rewrite (Hother t Hne). by apply objects_insert_ne.
    + constructor; [done|]. rewrite objects_insert_ne in Htags; done.
Qed.

Lemma new_post_columns t c a p now id :
  let r := new_row (TableDef "posts" posts_fields posts_foreign_keys [])
             [("title", VStr t); ("content", VStr c); ("author_id", VInt a);
              ("published", VBool p)] now id in
  col r "id" = VInt id /\ col r "title" = VStr t /\ col r "content" = VStr c
  /\ col r "author_id" = VInt a /\ col r "published" = VBool p
  /\ col r "created_at" = VTime now /\ col r "updated_at" = VTime now.
Proof. repeat split; vm_compute; reflexivity. Qed.

(** Inserting a post succeeds exactly when the author exists. *)
Lemma create_post_row t c a p now db :
  let posts := objects "posts" db in
  let r := new_row (TableDef "posts" posts_fields posts_foreign_keys [])
             [("title", VStr t); ("content", VStr c); ("author_id", VInt a);
              ("published", VBool p)] now (next_id posts) in
  create blog_schema "posts"
    [("title", VStr t); ("content", VStr c); ("author_id", VInt a);
     ("published", VBool p)] now db
  = if existsb (col_is "id" (VInt a)) (objects "users" db)
    then (Ok r, <["posts" := posts ++ [r]]> db)
    else (Raise (IntegrityError ForeignKeyViolation "posts" ["author_id"]),
          db).
Proof.
  intros posts r. unfold create.
  change (find_table blog_schema "posts")
    with (Some (TableDef "posts" posts_fields posts_foreign_keys [])).
  cbv beta iota. fold posts. fold r.
  destruct (new_post_columns t c a p now (next_id posts))
    as (_ & _ & _ & Ha & _). fold r in Ha. clearbody r.
  unfold validate, unique_violation, fk_violation, fk_satisfied. simpl.
  rewrite Ha, andb_true_r.
  by destruct (existsb _ (objects "users" db)).
Qed.

(** X6.  [create_post_with_tags] is all or nothing.  When it raises,
    the database is the one it was given.  When it returns a post, the
    author and every requested tag exist, posts holds the post as its
    one new row, post_tags holds one new link from the post to each tag
    id, in order, and no other table has changed. *)
Theorem create_post_with_tags_all_or_nothing (db : database)
    (data : PostCreateWithTags) (now : Z) :
  match create_post_with_tags data now db with
  | (Raise _, db') => db' = db
  | (Ok post, db') =>
      existsb (col_is "id" (VInt (pc_author_id data))) (objects "users" db)
      = true
      /\ Forall (fun tid => existsb (col_is "id" (VInt tid))
                                    (objects "tags" db) = true)
                (pc_tag_ids data)
      /\ objects "posts" db' = objects "posts" db ++ [post]
      /\ col post "author_id" = VInt (pc_author_id data)
      /\ (exists links,
            objects "post_tags" db' = objects "post_tags" db ++ links
            /\ map (fun l => col l "tag_id") links
               = map VInt (pc_tag_ids data)
            /\ Forall (fun l => col l "post_id" = col post "id") links)
      /\ (forall t, t <> "posts" -> t <> "post_tags" ->
            objects t db' = objects t db)
  end.
Proof.
  unfold create_post_with_tags, bind at 1, query at 1. cbv beta iota.
  destruct (existsb (col_is "id" (VInt (pc_author_id data)))
                    (objects "users" db)) eqn:Hauthor;
    cbv beta iota delta [negb]; [|done].
  unfold bind at 1.
  match goal with
  | |- context [ (if ?c then ?m else ret tt) db ] =>
    assert ((if c then m else ret tt) db = (Ok tt, db)
            \/ exists e, (if c then m else ret tt) db = (Raise e, db))
      as [->| [e ->]];
      [destruct c; [|by left];
       unfold bind, query, raise; cbv beta iota;
       match goal with
       | |- context [ if ?c' then _ else _ ] =>
         destruct c'; [right; by eexists|by left]
       end
      | | done]
  end.
  unfold atomic, bind at 1. rewrite create_post_row, Hauthor.
  cbv beta iota zeta.
  set (post := new_row _ _ now _).
  destruct (new_post_columns (pc_title data) (pc_content data)
              (pc_author_id data) (pc_published data) now
              (next_id (objects "posts" db))) as (_ & _ & _ & Ha & _).
  fold post in Ha. clearbody post.
  unfold bind at 1.
  pose proof (link_loop (col post "id") now (pc_tag_ids data)
                (<["posts" := objects "posts" db ++ [post]]> db)) as Hloop.
  destruct (for_each (pc_tag_ids data) _ _) as [[[]|e] db2]; [|done].
  destruct Hloop as (links & Hl & Hm & Hf & Hother & Htags).
  unfold ret. split; [done|]. split.
  { eapply Forall_impl; [exact Htags|]. simpl. intros tid Ht.
    by rewrite objects_insert_ne in Ht. }
  split; [by rewrite (Hother "posts"), objects_insert_eq|].
  split; [done|]. split.
  - exists links. by rewrite Hl, objects_insert_ne.
  - intros t Hp Hpt. rewrite (Hother t Hpt). by apply objects_insert_ne.
Qed.

(** X7.  [create_post] checks nothing itself: with an author id that no
    user has, the store refuses the row with a foreign key violation on
    author_id and nothing changes; otherwise the post is appended with a
    key that no stored post has. *)
Theorem create_post_outcome (db : database) (data : PostCreate) (now : Z) :
  match create_post data now db with
  | (Ok post, db') =>
      existsb (col_is "id" (VInt (pn_author_id data))) (objects "users" db)
      = true
      /\ objects "posts" db' = objects "posts" db ++ [post]
      /\ (forall t, t <> "posts" -> objects t db' = objects t db)
      /\ col post "title" = VStr (pn_title data)
      /\ col post "author_id" = VInt (pn_author_id data)
      /\ col post "published" = VBool (pn_published data)
      /\ Forall (fun x => col x "id" <> col post "id") (objects "posts" db)
  | (Raise e, db') =>
      db' = db
      /\ e = IntegrityError ForeignKeyViolation "posts" ["author_id"]
      /\ existsb (col_is "id" (VInt (pn_author_id data))) (objects "users" db)
         = false
  end.
Proof.
  unfold create_post. rewrite create_post_row. cbv zeta.
  destruct (existsb _ (objects "users" db)); [|done].
  destruct (new_post_columns (pn_title data) (pn_content data)
              (pn_author_id data) (pn_published data) now
              (next_id (objects "posts" db)))
    as (Hid & Ht & _ & Ha & Hp & _).
  set (post := new_row _ _ now _) in *. clearbody post.
  split; [done|]. split; [apply objects_insert_eq|].
  split; [intros t Hne; by apply objects_insert_ne|].
  split; [done|]. split; [done|]. split; [done|].
  apply Forall_forall. intros x Hx. rewrite Hid. apply next_id_fresh.
  by apply list_elem_of_In.
Qed.

(** ** Linking and unlinking a tag *)

Lemma add_tag_to_post_inv post_id tag_id now db l db1 :
  add_tag_to_post post_id tag_id now db = (Ok l, db1) ->
  existsb (col_is "id" (VInt post_id)) (objects "posts" db) = true
  /\ existsb (col_is "id" (VInt tag_id)) (objects "tags" db) = true
  /\ existsb (is_link post_id tag_id) (objects "post_tags" db) = false
  /\ db1 = <["post_tags" := objects "post_tags" db ++ [l]]> db
  /\ is_link post_id tag_id l = true.
Proof.
  unfold add_tag_to_post, bind, query, raise. cbv beta iota.
  destruct (existsb _ (objects "posts" db)); simpl; [|done].
  destruct (existsb _ (objects "tags" db)); simpl; [|done].
  destruct (existsb _ (objects "post_tags" db)) eqn:E; [done|].
  destruct (create_link_cases (VInt post_id) tag_id now db)
    as [(e & -> & _)|(r & -> & Hp & Ht & _)]; [done|].
  intros [= <- <-]. repeat split; try done.
  unfold is_link. by rewrite !col_is_int.
Qed.

(** X8.  After a tag was added to a post, adding it again is rejected
    with "Tag already added to post" and changes nothing, and removing
    it succeeds and gives back every table as it was before the tag was
    added. *)
Theorem add_then_remove_tag (db db1 : database) (post_id tag_id now : Z)
    (l : row) :
  add_tag_to_post post_id tag_id now db = (Ok l, db1) ->
  (forall now', add_tag_to_post post_id tag_id now' db1
     = (Raise (HTTPException 400 "Tag already added to post"), db1))
  /\ exists db2,
       remove_tag_from_post post_id tag_id db1 = (Ok tt, db2)
       /\ forall t, objects t db2 = objects t db.
Proof.
  intros Hadd. pose proof Hadd as Hinv.
  apply add_tag_to_post_inv in Hinv as (Hpost & Htag & Hfree & -> & Hl).
  assert (existsb (is_link post_id tag_id)
            (objects "post_tags"
               (<["post_tags" := objects "post_tags" db ++ [l]]> db)) = true)
    as Hlinked.
  { rewrite objects_insert_eq, existsb_app. simpl. by rewrite Hl, orb_true_r. }
  split.
  - intros now'. clear Hadd.
    unfold add_tag_to_post, bind, query, raise. cbv beta iota.
    rewrite (objects_insert_ne "post_tags" "posts") by done.
    rewrite Hpost. cbn [negb]. cbv beta iota.
    rewrite (objects_insert_ne "post_tags" "tags") by done.
    rewrite Htag. cbn [negb]. cbv beta iota.
    by rewrite Hlinked.
  - eexists. split.
    + unfold remove_tag_from_post.
      rewrite (delete_handler_outcome _ _ _ _ _ (deletion_log_post_tags _ _)).
      by rewrite Hlinked.
    + intros t. destruct (decide (t = "post_tags")) as [->|Hne].
      * rewrite (objects_removed _ _ _ (is_link post_id tag_id)).
        -- rewrite objects_insert_eq, List.filter_app. simpl. rewrite Hl. simpl.
           rewrite app_nil_r. apply filter_all. intros x Hx.
           apply negb_true_iff, not_true_iff_false. intros Hlx.
           apply not_true_iff_false in Hfree. apply Hfree, existsb_exists.
           by exists x.
        -- intros x Hx. rewrite in_tagged, filter_In. tauto.
      * rewrite objects_untouched.
        -- by apply objects_insert_ne.
        -- intros x. rewrite in_tagged. intros [? _]. done.
Qed.

(** ** Tags with the same slug *)

Lemma create_tag_inv `{Unicode} name now db tag db1 :
  create_tag name now db = (Ok tag, db1) ->
  db1 = <["tags" := objects "tags" db ++ [tag]]> db
  /\ col tag "slug" = VStr (slugify name).
Proof.
  unfold create_tag, bind, query, raise. cbv beta iota.
  destruct (existsb _ (objects "tags" db)); [done|].
  unfold create. destruct (find_table blog_schema "tags") as [td|] eqn:Etd;
    [|done].
  destruct (validate td db _); [done|]. intros [= <- <-]. split; [done|].
  by destruct (new_tag_columns td name (slugify name) now
                 (next_id (objects "tags" db)) Etd).
Qed.

(** X9.  Once a tag is created, a second tag whose name has the same
    slug is rejected with "Tag already exists" and changes nothing, and
    [get_tag] finds a tag under that slug. *)
Theorem create_tag_same_slug `{Unicode} (db db1 : database)
    (name other : text)
    (now later : Z) (tag : row) :
  create_tag name now db = (Ok tag, db1) ->
  slugify other = slugify name ->
  create_tag other later db1
  = (Raise (HTTPException 400 "Tag already exists"), db1)
  /\ exists found, get_tag (slugify name) db1 = (Ok found, db1)
                   /\ col found "slug" = VStr (slugify name).
Proof.
  intros Hc Hslug. apply create_tag_inv in Hc as [-> Hs].
  assert (existsb (col_is "slug" (VStr (slugify name)))
            (objects "tags" (<["tags" := objects "tags" db ++ [tag]]> db))
          = true) as Hex.
  { rewrite objects_insert_eq, existsb_app. simpl.
    by rewrite (col_is_str _ _ _ Hs), orb_true_r. }
  split.
  - unfold create_tag, bind, query, raise. cbv beta iota.
    by rewrite Hslug, Hex.
  - unfold get_tag, bind, query, raise, ret. cbv beta iota.
    rewrite find_existsb in Hex.
    destruct (List.find _ _) as [found|] eqn:Ef; [|done].
    exists found. split; [done|].
    apply find_some in Ef as [_ Ef]. apply col_is_true in Ef. tauto.
Qed.

(** ** Replacing the tags of a post *)

(** X10.  When [set_post_tags] succeeds, the links of the post are one
    per requested tag id, in order, the links of other posts are the
    ones from before, and no other table has changed.  When it rejects
    the request as not found, nothing has changed.  It does not run in a
    transaction: the only other way to fail is a foreign key violation
    while links are inserted. *)
Theorem set_post_tags_outcome (db : database) (post_id : Z)
    (tag_ids : list Z) (now : Z) :
  let of_post := col_is "post_id" (VInt post_id) in
  match set_post_tags post_id tag_ids now db with
  | (Ok out, db') =>
      out = (post_id, tag_ids)
      /\ map (fun l => col l "tag_id")
             (List.filter of_post (objects "post_tags" db'))
         = map VInt tag_ids
      /\ List.filter (fun l => negb (of_post l)) (objects "post_tags" db')
         = List.filter (fun l => negb (of_post l)) (objects "post_tags" db)
      /\ (forall t, t <> "post_tags" -> objects t db' = objects t db)
  | (Raise e, db') =>
      (db' = db
       /\ (e = HTTPException 404 "Post not found"
           \/ e = HTTPException 400 "One or more tags not found"))
      \/ is_fk_violation e
  end.
Proof.
  intros of_post. unfold set_post_tags, bind at 1, query at 1.
  cbv beta iota.
  destruct (existsb _ (objects "posts" db)); cbn [negb]; cbv beta iota.
  2:{ left. split; [done|]. by left. }
  unfold bind at 1, query at 1. cbv beta iota.
  destruct (negb _).
  { left. split; [done|]. by right. }
  unfold bind at 1, delete.
  rewrite deletion_log_post_tags. cbv beta iota.
  set (db1 := fold_left remove_row _ db).
  assert (objects "post_tags" db1
          = List.filter (fun l => negb (of_post l)) (objects "post_tags" db))
    as Hcleared.
  { apply objects_removed. intros x Hx. rewrite in_tagged, filter_In. tauto. }
  assert (forall t, t <> "post_tags" -> objects t db1 = objects t db)
    as Hkept.
  { intros t Hne. apply objects_untouched. intros x. rewrite in_tagged.
    intros [? _]. done. }
  unfold bind at 1.
  pose proof (link_loop (VInt post_id) now tag_ids db1) as Hloop.
  destruct (for_each tag_ids _ db1) as [[[]|e] db2]; [|by right].
  destruct Hloop as (links & Hl & Hm & Hf & Hother & _).
  unfold ret. split; [done|].
  assert (List.filter of_post links = links) as Hmine.
  { apply filter_all. intros l Hin. rewrite Forall_forall in Hf.
    apply col_is_int, Hf. by apply list_elem_of_In. }
  assert (List.filter (fun l => negb (of_post l)) links = []) as Hnone.
  { rewrite <- Hmine. rewrite filter_filter. apply filter_none.
    apply not_true_iff_false. rewrite existsb_exists.
    intros (x & _ & Hx). by destruct (of_post x). }
  rewrite Hl, Hcleared, !List.filter_app, !filter_filter, Hmine, Hnone.
  split; [|split].
  - rewrite (filter_none (fun x => negb (of_post x) && of_post x)); [done|].
    apply not_true_iff_false. rewrite existsb_exists.
    intros (x & _ & Hx). by destruct (of_post x).
  - rewrite app_nil_r. apply filter_ext. intros x. by destruct (of_post x).
  - intros t Hne. by rewrite (Hother t Hne), (Hkept t Hne).
Qed.

(** ** Comments *)

Lemma new_comment_columns c p a now id :
  let r := new_row (TableDef "comments" comments_fields
                             comments_foreign_keys [])
             [("content", VStr c); ("post_id", VInt p); ("author_id", VInt a)]
             now id in
  col r "id" = VInt id /\ col r "content" = VStr c /\ col r "post_id" = VInt p
  /\ col r "author_id" = VInt a /\ col r "created_at" = VTime now.
Proof. repeat split; vm_compute; reflexivity. Qed.

(** X11.  [create_comment] answers 404 when the post is missing, else
    400 when the author is missing, and changes nothing in both cases;
    otherwise it appends one comment with the content, the post and the
    author, under a key that no stored comment has. *)
Theorem create_comment_outcome (db : database) (post_id : Z)
    (data : CommentCreate) (now : Z) :
  let has_post := existsb (col_is "id" (VInt post_id)) (objects "posts" db) in
  let has_author := existsb (col_is "id" (VInt (cc_author_id data)))
                            (objects "users" db) in
  match create_comment post_id data now db with
  | (Ok c, db') =>
      has_post = true /\ has_author = true
      /\ objects "comments" db' = objects "comments" db ++ [c]
      /\ (forall t, t <> "comments" -> objects t db' = objects t db)
      /\ col c "content" = VStr (cc_content data)
      /\ col c "post_id" = VInt post_id
      /\ col c "author_id" = VInt (cc_author_id data)
      /\ Forall (fun x => col x "id" <> col c "id") (objects "comments" db)
  | (Raise e, db') =>
      db' = db
      /\ e = (if has_post then HTTPException 400 "Author not found"
              else HTTPException 404 "Post not found")
      /\ has_post && has_author = false
  end.
Proof.
  intros has_post has_author. subst has_post has_author.
  unfold create_comment, bind, query, raise. cbv beta iota.
  destruct (existsb _ (objects "posts" db)) eqn:Hp; cbn [negb];
    cbv beta iota; [|done].
  destruct (existsb _ (objects "users" db)) eqn:Ha; cbn [negb];
    cbv beta iota; [|done].
  unfold create.
  change (find_table blog_schema "comments")
    with (Some (TableDef "comments" comments_fields
                  comments_foreign_keys [])).
  cbv beta iota.
  pose proof (new_comment_columns (cc_content data) post_id
                (cc_author_id data) now (next_id (objects "comments" db)))
    as Hcols. cbv zeta in Hcols.
  set (c := new_row _ _ now _) in *. clearbody c.
  destruct Hcols as (Hid & Hc & Hpost & Hauthor & _).
  assert (validate (TableDef "comments" comments_fields
                      comments_foreign_keys []) db c = None) as ->.
  { unfold validate, unique_violation, fk_violation, fk_satisfied. simpl.
    by rewrite Hpost, Hauthor, Hp, Ha. }
  split; [done|]. split; [done|]. split; [apply objects_insert_eq|].
  split; [intros t Hne; by apply objects_insert_ne|].
  split; [done|]. split; [done|]. split; [done|].
  apply Forall_forall. intros x Hx. rewrite Hid. apply next_id_fresh.
  by apply list_elem_of_In.
Qed.

(** X12.  [update_comment] changes the content of the comment with the
    id and nothing else: every other column of the stored comment, every
    other comment and every other table stay as they were; with no such
    comment it raises 404 and changes nothing. *)
Theorem update_comment_outcome (db : database) (comment_id : Z)
    (content : text) :
  patch_frame "comments" "Comment not found" comment_id
              [("content", VStr content)] db
              (update_comment comment_id content db)
  /\ match update_comment comment_id content db with
     | (Ok c, _) => col c "content" = VStr content
     | (Raise _, _) => True
     end.
Proof.
  split.
  - apply (patch_spec "comments" comment_id [("content", VStr content)] db
             "Comment not found"); simpl; [tauto|].
    intros [[=]|[]].
  - unfold update_comment, bind, query, raise. cbv beta iota.
    destruct (get_or_none "comments" comment_id db) as [c|]; [|done].
    destruct (save _ _ _ db) as [[[]|e] db']; [|done].
    unfold ret, col. by rewrite lookup_insert_eq.
Qed.

(** ** Posts of a tag *)

(** X13.  [list_posts_by_tag] answers 404 exactly when no tag has the
    slug.  Otherwise a post is returned exactly when it is stored and
    some link of the tag found under the slug holds its key; the posts
    come in stored order and the database is not changed. *)
Theorem list_posts_by_tag_outcome (db : database) (slug : text) :
  match list_posts_by_tag slug db with
  | (Ok posts, db') =>
      db' = db
      /\ exists tag,
           List.find (col_is "slug" (VStr slug)) (objects "tags" db)
           = Some tag
           /\ posts
              = List.filter
                  (fun p =>
                     existsb (fun l => col_is "tag_id" (col tag "id") l
                                       && col_is "id" (col l "post_id") p)
                             (objects "post_tags" db))
                  (objects "posts" db)
  | (Raise e, db') =>
      db' = db /\ e = HTTPException 404 "Tag not found"
      /\ existsb (col_is "slug" (VStr slug)) (objects "tags" db) = false
  end.
Proof.
  unfold list_posts_by_tag, bind, query, raise, ret. cbv beta iota.
  rewrite find_existsb.
  destruct (List.find _ (objects "tags" db)) as [tag|]; [|done].
  cbv beta iota.
  set (links := List.filter (col_is "tag_id" (col tag "id"))
                            (objects "post_tags" db)).
  assert (forall p,
            existsb (fun l => col_is "tag_id" (col tag "id") l
                              && col_is "id" (col l "post_id") p)
                    (objects "post_tags" db)
            = id_among (map (fun pt => col pt "post_id") links) p) as Hsame.
  { intros p. unfold id_among, links. apply eq_true_iff_eq.
    rewrite !existsb_exists. split.
    - intros (l & Hl & H). apply andb_true_iff in H as [Ht Hp].
      exists (col l "post_id"). split; [|done].
      apply (in_map (fun pt => col pt "post_id")). by apply filter_In.
    - intros (v & Hv & Hp). apply in_map_iff in Hv as (l & <- & Hl).
      apply filter_In in Hl as [Hl Ht]. exists l. split; [done|].
      by rewrite Ht, Hp. }
  destruct (is_empty _) eqn:Hempty; cbv beta iota.
  - split; [done|]. exists tag. split; [done|].
    destruct (map _ links) eqn:Hm; [|done]. symmetry. apply filter_none.
    apply not_true_iff_false. rewrite existsb_exists. intros (p & _ & Hp).
    by rewrite Hsame in Hp.
  - split; [done|]. exists tag. split; [done|].
    apply filter_ext. intros p. by rewrite Hsame.
Qed.

(** ** Consecutive pages *)

(** X14.  Pages of [list_posts] tile the ordered query: what starts at
    the offset of a page is the items of the page followed by what
    starts at the offset of the next page.  A page before the last holds
    [per_page] items, and a page after the last is empty. *)
Theorem list_posts_pages_tile (db : database) (published : option bool)
    (author_id created_after created_before : option Z) (page per_page : Z) :
  1 <= page -> 1 <= per_page ->
  let ordered :=
    order_by_created_at_desc
      (posts_query published author_id created_after created_before db) in
  let offset := fun k => Z.to_nat ((k - 1) * per_page) in
  exists r,
    list_posts published author_id created_after created_before
               page per_page db = (Ok r, db)
    /\ drop (offset page) ordered
       = items r ++ drop (offset (page + 1)) ordered
    /\ (page < pages r -> Z.of_nat (length (items r)) = per_page)
    /\ (pages r < page -> items r = []).
Proof.
  intros Hpage Hper ordered offset.
  eexists. split; [reflexivity|]. cbn [items pages total].
  fold ordered.
  set (q := posts_query published author_id created_after created_before db).
  assert (length ordered = length q) as Hlen
    by apply Permutation_length, order_by_created_at_desc_perm.
  set (n := Z.of_nat (length q)).
  assert (forall k, 1 <= k -> offset (k + 1) = (offset k + Z.to_nat per_page)%nat)
    as Hnext.
  { intros k Hk. unfold offset.
    replace ((k + 1 - 1) * per_page) with ((k - 1) * per_page + per_page)
      by lia.
    apply Z2Nat.inj_add; nia. }
  assert (0 <= n) as Hn by (unfold n; lia).
  pose proof (Z.div_mod (n + per_page - 1) per_page ltac:(lia)) as Hd.
  pose proof (Z.mod_pos_bound (n + per_page - 1) per_page ltac:(lia)) as Hm.
  fold (offset page). split; [|split].
  - rewrite (Hnext page Hpage), <- drop_drop. by rewrite take_drop.
  - intros Hlt. rewrite length_take, length_drop, Hlen.
    assert (Z.of_nat (offset page) = (page - 1) * per_page) as Ho
      by (unfold offset; rewrite Z2Nat.id; nia).
    assert (page * per_page <= n) by nia.
    fold n in Hlt. nia.
  - intros Hgt. apply nil_length_inv.
    rewrite length_take, length_drop, Hlen.
    assert (Z.of_nat (offset page) = (page - 1) * per_page) as Ho
      by (unfold offset; rewrite Z2Nat.id; nia).
    assert (n <= (page - 1) * per_page) by nia.
    fold n in Hgt. lia.
Qed.

(** ** Reverting a run of migrations *)

Lemma unit_round_trip u s s' :
  In u discovered_units -> fk_closed s ->
  run_ops (upgrade u) s = Ok s' ->
  run_ops (downgrade u) s' = Ok s /\ fk_closed s'.
Proof.
  intros Hu Hc Hup.
  split; [|by apply (run_ops_fk_closed (upgrade u) s s')].
  destruct Hu as [<-|[<-|[<-|[<-|[]]]]]; simpl in *.
  - destruct (create_table "users" _ _ s) as [s1|] eqn:E1; [|done].
    injection Hup as <-. by rewrite (create_then_drop _ _ _ _ _ Hc E1).
  - destruct (create_table "posts" _ _ s) as [s1|] eqn:E1; [|done].
    injection Hup as <-. by rewrite (create_then_drop _ _ _ _ _ Hc E1).
  - destruct (create_table "comments" _ _ s) as [s1|] eqn:E1; [|done].
    injection Hup as <-. by rewrite (create_then_drop _ _ _ _ _ Hc E1).
  - destruct (create_table "tags" _ _ s) as [s1|] eqn:E1; [|done].
    destruct (create_table "post_tags" _ _ s1) as [s2|] eqn:E2; [|done].
    injection Hup as <-.
    pose proof (create_table_fk_closed _ _ _ _ _ Hc E1) as Hc1.
    rewrite (create_then_drop _ _ _ _ _ Hc1 E2).
    by rewrite (create_then_drop _ _ _ _ _ Hc E1).
Qed.

Lemma revert_units_app a b s :
  revert_units (a ++ b) s
  = match revert_units a s with
    | Ok s' => revert_units b s'
    | Raise e => Raise e
    end.
Proof.
  revert s. induction a as [|u a IH]; intros s; simpl; [done|].
  destruct (run_ops (downgrade u) s); [apply IH|done].
Qed.

(** X15.  Whatever run of the four units was applied to a schema whose
    foreign keys reference existing tables, running their downgrades in
    the reverse order succeeds and gives back the schema from before the
    run. *)
Theorem revert_undoes_apply (units : list migration_unit) :
  forall s s' : schema,
    Forall (fun u => In u discovered_units) units ->
    fk_closed s ->
    apply_units units s = Ok s' ->
    revert_units (rev units) s' = Ok s.
Proof.
  induction units as [|u units IH]; intros s s' Hall Hc Happ.
  - simpl in *. by injection Happ as <-.
  - apply Forall_cons in Hall as [Hu Hall]. simpl in Happ.
    destruct (run_ops (upgrade u) s) as [s1|] eqn:E; [|done].
    destruct (unit_round_trip u s s1 Hu Hc E) as [Hdown Hc1].
    simpl. rewrite revert_units_app, (IH s1 s' Hall Hc1 Happ). simpl.
    by rewrite Hdown.
Qed.

(** ** What a delete leaves *)

(** X16.  [delete_user] removes exactly: the users with the id, the
    posts that reference one of them as author, the comments that
    reference one of them as author or one of those posts, and the links
    that reference one of those posts.  Every other row stays, in
    order, and tags is untouched. *)
Theorem delete_user_removes_exactly (db : database) (user_id : Z) :
  let gone := List.filter (col_is "id" (VInt user_id)) (objects "users" db) in
  let by_gone := fun r => existsb (fun u => refs "author_id" u r) gone in
  let gone_posts := List.filter by_gone (objects "posts" db) in
  let on_gone_post := fun r => existsb (fun p => refs "post_id" p r)
                                       gone_posts in
  let db' := snd (delete_user user_id db) in
  objects "users" db'
  = List.filter (fun u => negb (col_is "id" (VInt user_id) u))
                (objects "users" db)
  /\ objects "posts" db'
     = List.filter (fun p => negb (by_gone p)) (objects "posts" db)
  /\ objects "comments" db'
     = List.filter (fun c => negb (by_gone c || on_gone_post c))
                   (objects "comments" db)
  /\ objects "post_tags" db'
     = List.filter (fun l => negb (on_gone_post l)) (objects "post_tags" db)
  /\ objects "tags" db' = objects "tags" db.
Proof.
  intros gone by_gone gone_posts on_gone_post db'. subst db'.
  unfold delete_user. rewrite snd_delete_then.
  rewrite (snd_delete _ _ _ _ _ (deletion_log_users _ _)). fold gone.
  assert (forall t x,
    In (t, x) (flat_map (fun u => user_dependents db u ++ [("users", u)]) gone)
    <-> (t = "users" /\ In x gone)
        \/ (exists u p, In u gone /\ In p (objects "posts" db)
                        /\ refs "author_id" u p = true
                        /\ In (t, x) (post_log db p))
        \/ (t = "comments" /\ In x (objects "comments" db)
            /\ by_gone x = true)) as Hlog.
  { intros t x. rewrite in_flat_map. unfold by_gone.
    rewrite existsb_exists. split.
    - intros (u & Hu & Hin). apply in_app_iff in Hin as [Hin|[[= <- <-]|[]]].
      + apply in_user_dependents in Hin as [(p & Hp & Hr & Hin)|(? & ? & ?)].
        * right. left. by exists u, p.
        * right. right. split; [done|]. split; [done|]. by exists u.
      + by left.
    - intros [[-> Hx]|[(u & p & Hu & Hp & Hr & Hin)|(-> & Hx & u & Hu & Hr)]].
      + exists x. split; [done|]. apply in_app_iff. right. by left.
      + exists u. split; [done|]. apply in_app_iff. left.
        apply in_user_dependents. left. by exists p.
      + exists u. split; [done|]. apply in_app_iff. left.
        apply in_user_dependents. by right. }
  assert (forall p, In p gone_posts
            <-> In p (objects "posts" db)
                /\ exists u, In u gone /\ refs "author_id" u p = true)
    as Hposts.
  { intros p. unfold gone_posts, by_gone. rewrite filter_In, existsb_exists.
    done. }
  split; [|split; [|split; [|split]]].
  - apply objects_removed. intros x Hx. rewrite Hlog. split.
    + intros [[_ Hg]|[(u & p & _ & _ & _ & Hin)|[? _]]]; [|exfalso|done].
      * by apply filter_In in Hg as [_ ?].
      * apply in_post_log in Hin as [[? _]|[[? _]|[? _]]]; done.
    + intros Hid. left. split; [done|]. by apply filter_In.
  - apply objects_removed. intros x Hx. rewrite Hlog. unfold by_gone.
    rewrite existsb_exists. split.
    + intros [[? _]|[(u & p & Hu & _ & Hr & Hin)|[? _]]]; [done| |done].
      apply in_post_log in Hin as [[? _]|[[? _]|[_ ->]]]; [done|done|].
      by exists u.
    + intros (u & Hu & Hr). right. left. exists u, x.
      split; [done|]. split; [done|]. split; [done|].
      apply in_post_log. right. right. done.
  - apply objects_removed. intros x Hx. rewrite Hlog, orb_true_iff.
    unfold on_gone_post. rewrite existsb_exists. split.
    + intros [[? _]|[(u & p & Hu & Hp & Hr & Hin)|(_ & _ & ?)]];
        [done| |by left].
      apply in_post_log in Hin as [(_ & _ & Hrp)|[[? _]|[? _]]];
        [|done|done].
      right. exists p. split; [|done]. apply Hposts. split; [done|].
      by exists u.
    + intros [Hby|(p & Hp & Hrp)].
      * right. right. done.
      * apply Hposts in Hp as (Hp & u & Hu & Hr). right. left.
        exists u, p. split; [done|]. split; [done|]. split; [done|].
        apply in_post_log. left. done.
  - apply objects_removed. intros x Hx. rewrite Hlog.
    unfold on_gone_post. rewrite existsb_exists. split.
    + intros [[? _]|[(u & p & Hu & Hp & Hr & Hin)|[? _]]]; [done| |done].
      apply in_post_log in Hin as [[? _]|[(_ & _ & Hrp)|[? _]]];
        [done| |done].
      exists p. split; [|done]. apply Hposts. split; [done|]. by exists u.
    + intros (p & Hp & Hrp). apply Hposts in Hp as (Hp & u & Hu & Hr).
      right. left. exists u, p. split; [done|]. split; [done|].
      split; [done|]. apply in_post_log. right. left. done.
  - apply objects_untouched. intros x. rewrite Hlog.
    intros [[? _]|[(u & p & _ & _ & _ & Hin)|[? _]]]; [done| |done].
    apply in_post_log in Hin as [[? _]|[[? _]|[? _]]]; done.
Qed.

(** X17.  [delete_post] removes exactly the posts with the id and the
    comments that reference one of them, and leaves users untouched. *)
Theorem delete_post_removes_exactly (db : database) (post_id : Z) :
  let gone := List.filter (col_is "id" (VInt post_id)) (objects "posts" db) in
  let db' := snd (delete_post post_id db) in
  objects "posts" db'
  = List.filter (fun p => negb (col_is "id" (VInt post_id) p))
                (objects "posts" db)
  /\ objects "comments" db'
     = List.filter
         (fun c => negb (existsb (fun p => refs "post_id" p c) gone))
         (objects "comments" db)
  /\ objects "users" db' = objects "users" db.
Proof.
  intros gone db'. subst db'. rewrite delete_post_state. fold gone.
  split; [|split].
  - apply objects_removed. intros x Hx. rewrite in_flat_map.
    setoid_rewrite in_post_log. unfold gone. setoid_rewrite filter_In. split.
    + intros (p & [_ Hp] & [[? _]|[[? _]|[_ ->]]]); done.
    + intros Hid. exists x. split; [done|]. right. right. done.
  - apply objects_removed. intros x Hx. rewrite in_flat_map, existsb_exists.
    setoid_rewrite in_post_log. split.
    + intros (p & Hp & [(_ & _ & ?)|[[? _]|[? _]]]); [|done|done].
      by exists p.
    + intros (p & Hp & ?). exists p. split; [done|]. left. done.
  - apply objects_untouched. intros x. rewrite in_flat_map.
    setoid_rewrite in_post_log.
    intros (p & _ & [[? _]|[[? _]|[? _]]]); done.
Qed.

(** ** Witnesses and checks for the further properties *)

Lemma add_then_remove_tag_witness :
  exists db2,
    remove_tag_from_post 2 2 (snd (add_tag_to_post 2 2 500 sample_db))
    = (Ok tt, db2)
    /\ forall t, objects t db2 = objects t sample_db.
Proof.
  apply (add_then_remove_tag sample_db
           (snd (add_tag_to_post 2 2 500 sample_db)) 2 2 500
           (sample_link 4 2 2)).
  by_computing.
Defined.

Lemma create_tag_same_slug_witness :
  @create_tag sample_unicode (txt "hello_world!") 600
    (snd (@create_tag sample_unicode (txt "Hello World") 500 sample_db))
  = (Raise (HTTPException 400 "Tag already exists"),
     snd (@create_tag sample_unicode (txt "Hello World") 500 sample_db)).
Proof.
  apply (@create_tag_same_slug sample_unicode sample_db
           (snd (@create_tag sample_unicode (txt "Hello World") 500
                   sample_db))
           (txt "Hello World") (txt "hello_world!") 500 600
           (sample_tag 3 "Hello World" "hello-world")).
  - by_computing.
  - by_computing.
Defined.

Lemma list_posts_pages_tile_witness :
  exists r,
    list_posts None None None None 2 2 sample_db = (Ok r, sample_db)
    /\ items r = [sample_post 1 1 "first" 200].
Proof.
  destruct (list_posts_pages_tile sample_db None None None None 2 2)
    as (r & Hrun & Htile & _); [lia|lia|].
  exists r. split; [done|].
  assert (items r ++ [] = [sample_post 1 1 "first" 200]) as H.
  { transitivity
      (drop (Z.to_nat ((2 - 1) * 2))
         (order_by_created_at_desc (posts_query None None None None sample_db))).
    - rewrite Htile. f_equal; by_computing.
    - by_computing. }
  by rewrite app_nil_r in H.
Defined.

Lemma revert_undoes_apply_witness :
  revert_units (rev discovered_units) blog_schema = Ok [].
Proof.
  apply (revert_undoes_apply discovered_units [] blog_schema).
  - by_computing.
  - apply fk_closed_empty.
  - reflexivity.
Defined.

(** The outcomes above on the sample data. *)
Example further_samples :
  fst (delete_comment 9 sample_db)
  = Raise (HTTPException 404 "Comment not found")
  /\ fst (create_user {| uc_username := txt "cat"; uc_email := txt "ann@x.org" |}
                      500 sample_db)
     = Raise (HTTPException 400 "Email already taken")
  /\ fst (posts_stats sample_db)
     = Ok {| st_total := 3; st_published := 3; st_drafts := 0 |}
  /\ fst (create_post {| pn_title := txt "t"; pn_content := txt "c";
                         pn_author_id := 9; pn_published := false |}
                      500 sample_db)
     = Raise (IntegrityError ForeignKeyViolation "posts" ["author_id"])
  /\ fst (list_posts_by_tag (txt "rust-lang") sample_db)
     = Ok [sample_post 1 1 "first" 200; sample_post 2 2 "second" 210]
  /\ fst (list_user_posts 1 sample_db)
     = Ok [sample_post 3 1 "third" 220; sample_post 1 1 "first" 200]
  /\ objects "post_tags" (snd (set_post_tags 2 [2; 1] 500 sample_db))
     = [sample_link 1 1 1; sample_link 2 1 2; sample_link 3 2 2;
        sample_link 4 2 1]
  /\ fst (create_comment 9 {| cc_content := txt "x"; cc_author_id := 9 |}
                         500 sample_db)
     = Raise (HTTPException 404 "Post not found").
Proof. by_computing. Qed.

(** With a tags table that holds a key twice the count check of
    [create_post_with_tags] passes for a tag id that is missing; the
    insert then fails on the foreign key and the transaction gives the
    database back as it was. *)
Example create_post_with_tags_rolls_back :
  let db := <["tags" := [sample_tag 1 "A" "a"; sample_tag 1 "B" "b"]]>
              sample_db in
  create_post_with_tags
    {| pc_title := txt "T"; pc_content := txt "C"; pc_author_id := 1;
       pc_published := false; pc_tag_ids := [1; 999] |} 500 db
  = (Raise (IntegrityError ForeignKeyViolation "post_tags" ["tag_id"]), db).
Proof. by_computing. Qed.
